(** * Kiga-ers: a shallow embedding of the paper feed, the swipe gestures,
    the liked-paper store and the summarize endpoint.

    Sources embedded:
    - the arXiv proxy [GET] of [apps/web/src/app/api/papers/route.ts]
      (two revisions: the one in [route.ts], which sends [start: '0'],
      and the revised one kept after the root layout in [layout.tsx],
      which forwards the client's [start] and [max_results]);
    - the home page of the final revision ([src/unnamed/part_012]):
      [fetchPapers], the additional-load effect, the touch handlers,
      [handleLike], [handleDislike], [goToNextPaper], [generateAiSummary],
      [handleSearchSubmit], the mount effect, [renderStatusDisplay] with
      its reload button, and the card stack it renders;
    - [addLikedPaper], [removeLikedPaper], [isPaperLiked] and
      [updateLikedPaperSummary] of [LikedPapersContext.tsx];
    - the [POST] of the PDF summarize route ([src/unnamed/part_000]):
      the request checks, the temporary file name, [downloadFile], the
      upload and generation steps, the [finally] cleanup and the [catch].

    Strings are Stdlib [string]s holding UTF-8 bytes.  JavaScript's [trim]
    and the regular expression class [\s] are modelled on all of
    JavaScript's white space, multi-byte characters such as U+00A0 and
    U+3000 included.  Touch coordinates are integers (CSS pixels). *)

From Stdlib Require Import String Ascii List ZArith Lia Bool Arith.
From Stdlib Require Import DecimalString DecimalNat.
Import ListNotations.
Open Scope string_scope.

(* ------------------------------------------------------------------ *)
(** ** String helpers (the JavaScript string methods the code uses) *)

(** JavaScript's white space, i.e. what [String.prototype.trim] removes and
    what the class [\s] matches: the WhiteSpace and LineTerminator code
    points.  Strings are UTF-8, so a white space character is one of these
    byte sequences.  One byte: TAB, LF, VT, FF, CR and SPACE (9 to 13, 32). *)
Definition is_ws (c : ascii) : bool :=
  let n := nat_of_ascii c in
  Nat.eqb n 32 || (Nat.leb 9 n && Nat.leb n 13).

(** Two bytes: U+00A0 (C2 A0). *)
Definition is_ws2 (a b : ascii) : bool :=
  Nat.eqb (nat_of_ascii a) 194 && Nat.eqb (nat_of_ascii b) 160.

(** Three bytes: U+1680 (E1 9A 80), U+2000 to U+200A (E2 80 80 to E2 80 8A),
    U+2028, U+2029, U+202F (E2 80 A8, A9, AF), U+205F (E2 81 9F),
    U+3000 (E3 80 80) and U+FEFF (EF BB BF). *)
Definition is_ws3 (a b c : ascii) : bool :=
  let x := nat_of_ascii a in
  let y := nat_of_ascii b in
  let z := nat_of_ascii c in
  (Nat.eqb x 225 && Nat.eqb y 154 && Nat.eqb z 128) ||
  (Nat.eqb x 226 && Nat.eqb y 128 &&
     ((Nat.leb 128 z && Nat.leb z 138) || Nat.eqb z 168 || Nat.eqb z 169 || Nat.eqb z 175)) ||
  (Nat.eqb x 226 && Nat.eqb y 129 && Nat.eqb z 159) ||
  (Nat.eqb x 227 && Nat.eqb y 128 && Nat.eqb z 128) ||
  (Nat.eqb x 239 && Nat.eqb y 187 && Nat.eqb z 191).

(** A string read as a sequence of characters, as far as white space is
    concerned: a white space character of one, two or three bytes, or any
    other single byte. *)
Inductive Tok := Ch (a : ascii) | Ws1 (a : ascii) | Ws2 (a b : ascii) | Ws3 (a b c : ascii).

Definition tok_str (t : Tok) : string :=
  match t with
  | Ch a | Ws1 a => String a EmptyString
  | Ws2 a b => String a (String b EmptyString)
  | Ws3 a b c => String a (String b (String c EmptyString))
  end.

Definition is_ws_tok (t : Tok) : bool :=
  match t with Ch _ => false | _ => true end.

Definition one_tok (a : ascii) : Tok := if is_ws a then Ws1 a else Ch a.

(** Left to right, the longest white space sequence at each position. *)
Fixpoint tokens (s : string) : list Tok :=
  match s with
  | EmptyString => []
  | String a t =>
      match t with
      | EmptyString => [one_tok a]
      | String b u =>
          match u with
          | EmptyString =>
              if is_ws2 a b then [Ws2 a b] else one_tok a :: tokens t
          | String c r =>
              if is_ws3 a b c then Ws3 a b c :: tokens r
              else if is_ws2 a b then Ws2 a b :: tokens u
              else one_tok a :: tokens t
          end
      end
  end.

Fixpoint untokens (l : list Tok) : string :=
  match l with
  | [] => EmptyString
  | t :: r => tok_str t ++ untokens r
  end.

Fixpoint drop_ws (l : list Tok) : list Tok :=
  match l with
  | [] => []
  | t :: r => if is_ws_tok t then drop_ws r else l
  end.

(** [s.trim()]: white space removed at both ends. *)
Definition trim (s : string) : string :=
  untokens (rev (drop_ws (rev (drop_ws (tokens s))))).

(** [s.replace(/\s\s+/g, ' ')]: a run of two or more white space
    characters becomes one space, a single one is kept as it is. *)
Definition flush_ws (run : list Tok) : list Tok :=
  match run with
  | [] => []
  | [t] => [t]
  | _ => [Ws1 " "]
  end.

Fixpoint collapse_toks (run : list Tok) (l : list Tok) : list Tok :=
  match l with
  | [] => flush_ws run
  | t :: r =>
      if is_ws_tok t then collapse_toks (run ++ [t]) r
      else flush_ws run ++ t :: collapse_toks [] r
  end.

Definition collapse_ws (s : string) : string := untokens (collapse_toks [] (tokens s)).

(** [s.includes(t)] *)
Fixpoint includes (s t : string) : bool :=
  if String.prefix t s then true
  else match s with
       | EmptyString => false
       | String _ r => includes r t
       end.

(** [s.replace(t, u)] with a string pattern: first occurrence only. *)
Fixpoint replace_first (s t u : string) : string :=
  if String.prefix t s then u ++ substring (String.length t) (String.length s) s
  else match s with
       | EmptyString => EmptyString
       | String c r => String c (replace_first r t u)
       end.

(** [x || '0'] on a URL parameter: [null] and [''] are falsy. *)
Definition or_default (x : option string) (d : string) : string :=
  match x with
  | Some v => if String.eqb v "" then d else v
  | None => d
  end.

(** [`${n}`] for a non-negative integer. *)
Definition string_of_nat (n : nat) : string :=
  NilEmpty.string_of_uint (Nat.to_uint n).

(* ------------------------------------------------------------------ *)
(** ** The arXiv identifier: [idUrl.match(/\/abs\/([^v]+)/)?.[1]] *)

Fixpoint take_non_v (s : string) : string :=
  match s with
  | EmptyString => EmptyString
  | String c r => if Ascii.eqb c "v"%char then EmptyString else String c (take_non_v r)
  end.

(** Leftmost match: at each position, [/abs/] followed by at least one
    character other than [v]; the group is the longest such run. *)
Fixpoint abs_match (s : string) : option string :=
  match s with
  | EmptyString => None
  | String _ r =>
      if String.prefix "/abs/" s then
        match take_non_v (substring 5 (String.length s) s) with
        | EmptyString => abs_match r
        | cap => Some cap
        end
      else abs_match r
  end.

(* ------------------------------------------------------------------ *)
(** ** The papers route: query parameters sent upstream *)

Module PapersRoute.

Definition ARXIV_API_URL := "http://export.arxiv.org/api/query".
Definition DEFAULT_CATEGORY := "cat:cs.AI".
Definition MAX_RESULTS : nat := 10.
Definition DEFAULT_MAX_RESULTS := "10".

(** [request.nextUrl.searchParams]: [get] returns the first value. *)
Definition SearchParams := list (string * string).

Fixpoint get (ps : SearchParams) (k : string) : option string :=
  match ps with
  | [] => None
  | (k', v) :: r => if String.eqb k k' then Some v else get r k
  end.

Record UpstreamQuery := {
  search_query : string;
  sortBy : string;
  sortOrder : string;
  start : string;
  max_results : string
}.

(** Shared by both revisions: [query && query.trim() !== ''] picks the
    trimmed text and relevance order, otherwise the default category and
    submission-date order. *)
Definition query_and_sort (query : option string) : string * string :=
  match query with
  | Some q => if negb (String.eqb q "") && negb (String.eqb (trim q) "")
              then (trim q, "relevance")
              else (DEFAULT_CATEGORY, "submittedDate")
  | None => (DEFAULT_CATEGORY, "submittedDate")
  end.

(** [route.ts]: [start: '0'] (marked TODO), [max_results: MAX_RESULTS]. *)
Definition GET_upstream_route (ps : SearchParams) : UpstreamQuery :=
  let '(sq, sb) := query_and_sort (get ps "query") in
  {| search_query := sq; sortBy := sb; sortOrder := "descending";
     start := "0"; max_results := string_of_nat MAX_RESULTS |}.

(** Revised handler (in [layout.tsx]): forwards [start] and
    [max_results] from the client. *)
Definition GET_upstream (ps : SearchParams) : UpstreamQuery :=
  let start0 := or_default (get ps "start") "0" in
  let max0 := or_default (get ps "max_results") DEFAULT_MAX_RESULTS in
  let '(sq, sb) := query_and_sort (get ps "query") in
  {| search_query := sq; sortBy := sb; sortOrder := "descending";
     start := start0; max_results := max0 |}.

(** ** Entries of the parsed feed and their conversion *)

(** Attributes and fields read with a [typeof ... === 'string'] test are
    [Some] when they are strings and [None] otherwise. *)
Record ArxivLinkAttribute := { link_href : option string; link_title : option string }.
Record ArxivAuthor := { author_name : option string }.
Record ArxivCategoryAttribute := { cat_term : option string }.

Record ArxivEntry := {
  entry_id : option string;
  entry_updated : option string;
  entry_published : option string;
  entry_title : option string;
  entry_summary : option string;
  entry_author : option (list (option ArxivAuthor));
  entry_link : option (list (option ArxivLinkAttribute));
  entry_category : option (list (option ArxivCategoryAttribute))
}.

Record PaperSummary := {
  ps_id : string;
  ps_title : string;
  ps_summary : string;
  ps_authors : list string;
  ps_published : string;
  ps_updated : string;
  ps_pdfLink : string;
  ps_categories : list string
}.

(** [links.find(link => link['@_title'] === 'pdf' && typeof href === 'string')?.['@_href'] ?? ''] *)
Fixpoint find_pdf_link (links : list (option ArxivLinkAttribute)) : string :=
  match links with
  | [] => ""
  | Some l :: r =>
      match link_title l, link_href l with
      | Some t, Some h => if String.eqb t "pdf" then h else find_pdf_link r
      | _, _ => find_pdf_link r
      end
  | None :: r => find_pdf_link r
  end.

Definition pdf_link_of (idUrl : option string) (links : option (list (option ArxivLinkAttribute))) : string :=
  let pdf1 := match links with Some ls => find_pdf_link ls | None => "" end in
  if String.eqb pdf1 "" then
    match idUrl with
    | Some u =>
        if includes u "/abs/" then
          let potential := replace_first u "/abs/" "/pdf/" ++ ".pdf" in
          if String.prefix "http://" potential || String.prefix "https://" potential
          then potential else pdf1
        else pdf1
    | None => pdf1
    end
  else pdf1.

Definition authors_of (l : option (list (option ArxivAuthor))) : list string :=
  match l with
  | Some xs =>
      filter (fun n => negb (String.eqb n ""))
        (flat_map (fun a => match a with
                            | Some a' => match author_name a' with
                                         | Some n => [trim n]
                                         | None => []
                                         end
                            | None => []
                            end) xs)
  | None => []
  end.

Definition categories_of (l : option (list (option ArxivCategoryAttribute))) : list string :=
  match l with
  | Some xs =>
      filter (fun n => negb (String.eqb n ""))
        (flat_map (fun c => match c with
                            | Some c' => match cat_term c' with
                                         | Some t => [t]
                                         | None => []
                                         end
                            | None => []
                            end) xs)
  | None => []
  end.

(** The arrow function given to [entries.map]. *)
Definition entry_to_paper (e : option ArxivEntry) : option PaperSummary :=
  match e with
  | None => None
  | Some entryItem =>
      let idUrl := entry_id entryItem in
      match match idUrl with Some u => abs_match u | None => None end with
      | None => None
      | Some arxivId =>
          Some {| ps_id := arxivId;
                  ps_title := match entry_title entryItem with
                              | Some t => collapse_ws (trim t)
                              | None => "タイトルなし"
                              end;
                  ps_summary := match entry_summary entryItem with
                                | Some t => collapse_ws (trim t)
                                | None => "要約なし"
                                end;
                  ps_authors := authors_of (entry_author entryItem);
                  ps_published := match entry_published entryItem with Some t => t | None => "" end;
                  ps_updated := match entry_updated entryItem with Some t => t | None => "" end;
                  ps_pdfLink := pdf_link_of idUrl (entry_link entryItem);
                  ps_categories := categories_of (entry_category entryItem) |}
      end
  end.

(** [entries.map(...).filter(paper => paper !== null)]; [None] stands for
    a feed without an [entry] array, which yields the empty list. *)
Definition papers_of_entries (entries : option (list (option ArxivEntry))) : list PaperSummary :=
  match entries with
  | Some es => flat_map (fun e => match entry_to_paper e with
                                  | Some p => [p]
                                  | None => []
                                  end) es
  | None => []
  end.

(** An entry keeps its place in the output iff an identifier can be
    extracted from its [id]. *)
Definition has_arxiv_id (e : option ArxivEntry) : bool :=
  match e with
  | Some entryItem => match entry_id entryItem with
                      | Some u => match abs_match u with Some _ => true | None => false end
                      | None => false
                      end
  | None => false
  end.

End PapersRoute.

(* ------------------------------------------------------------------ *)
(** ** The liked-paper store ([LikedPapersContext.tsx]) *)

Record Paper := {
  id : string;
  title : string;
  summary : string;
  authors : list string;
  published : string;
  updated : string;
  pdfLink : string;
  categories : list string;
  aiSummary : option string;
  isEndOfFeedCard : bool;
  endOfFeedMessage : option string
}.

Module Liked.

(** [setLikedPapers(prev => !prev.find(p => p.id === paper.id) ? [...prev, paper] : prev)] *)
Definition addLikedPaper (prevPapers : list Paper) (paper : Paper) : list Paper :=
  match find (fun p => String.eqb (id p) (id paper)) prevPapers with
  | None => (prevPapers ++ [paper])%list
  | Some _ => prevPapers
  end.


End Liked.

(* ------------------------------------------------------------------ *)
(** ** The home page ([src/unnamed/part_012]) *)

Module Page.

Definition END_OF_FEED_CARD_ID_PAGE := "___END_OF_FEED___".
Definition SWIPE_THRESHOLD_PAGE : Z := 70.
Definition SWIPE_MAX_ROTATION_PAGE : Z := 12.
Definition VISIBLE_CARDS_IN_STACK_PAGE : nat := 2.
Definition MAX_RESULTS_PER_FETCH_PAGE : nat := 10.

Inductive Direction := Left | Right.

(** [cardTransform]: [''] or [translateX(dx*1.1px) rotate(dx/width*12deg)],
    kept as the pair it is computed from. *)
Inductive CardTransform := TNone | TDrag (diffX width : Z).

(** [feedbackColor]: [''], [styles.feedbackPinkLike], [styles.feedbackLimeDislike]. *)
Inductive Feedback := FbNone | FbPinkLike | FbLimeDislike.

Record Interaction := {
  isSwiping : bool;
  cardTransform : CardTransform;
  feedbackColor : Feedback;
  flyingDirection : option Direction
}.

Definition neutral : Interaction :=
  {| isSwiping := false; cardTransform := TNone; feedbackColor := FbNone; flyingDirection := None |}.

(** An issued [fetch('/api/papers?...')]: [req_term] is the search term
    of the URL, [req_closure_term] the [currentSearchTerm] the running
    [fetchPapers] closure was created with (used for the end message). *)
Record Request := {
  req_no : nat;
  req_initial : bool;
  req_term : string;
  req_offset : nat;
  req_closure_term : string
}.

Record State := {
  papers : list Paper;
  currentPaperIndex : nat;
  likedPapers : list Paper;
  isLoading : bool;
  currentSearchTerm : string;
  hasMorePapers : bool;
  interactionState : Interaction;
  touchStartX : option Z;
  touchCurrentX : option Z;
  touchStartY : option Z;
  canFetchMoreRef : bool;
  cardWidth : Z;                  (* topCardRef.current.offsetWidth *)
  inflight : list Request;        (* fetches not yet answered *)
  fetchLog : list Request;        (* every fetch issued, oldest first *)
  nextReq : nat;
  canFetchTimers : nat;           (* pending [canFetchMoreRef.current = true] timers *)
  advanceTimers : list nat        (* pending [goToNextPaper], with the captured [papers.length] *)
}.

(** Initial render: [isLoading] is [true], nothing fetched yet. *)
Definition init (liked : list Paper) (width : Z) : State :=
  {| papers := []; currentPaperIndex := 0; likedPapers := liked; isLoading := true;
     currentSearchTerm := ""; hasMorePapers := true; interactionState := neutral;
     touchStartX := None; touchCurrentX := None; touchStartY := None;
     canFetchMoreRef := true; cardWidth := width; inflight := []; fetchLog := [];
     nextReq := 0; canFetchTimers := 0; advanceTimers := [] |}.

(** Functional record updates, one per field. *)
Definition set_papers (v : list Paper) (s : State) : State :=
  {| papers := v; currentPaperIndex := currentPaperIndex s; likedPapers := likedPapers s;
     isLoading := isLoading s; currentSearchTerm := currentSearchTerm s; hasMorePapers := hasMorePapers s;
     interactionState := interactionState s; touchStartX := touchStartX s; touchCurrentX := touchCurrentX s;
     touchStartY := touchStartY s; canFetchMoreRef := canFetchMoreRef s; cardWidth := cardWidth s;
     inflight := inflight s; fetchLog := fetchLog s; nextReq := nextReq s;
     canFetchTimers := canFetchTimers s; advanceTimers := advanceTimers s |}.
Definition set_currentPaperIndex (v : nat) (s : State) : State :=
  {| papers := papers s; currentPaperIndex := v; likedPapers := likedPapers s;
     isLoading := isLoading s; currentSearchTerm := currentSearchTerm s; hasMorePapers := hasMorePapers s;
     interactionState := interactionState s; touchStartX := touchStartX s; touchCurrentX := touchCurrentX s;
     touchStartY := touchStartY s; canFetchMoreRef := canFetchMoreRef s; cardWidth := cardWidth s;
     inflight := inflight s; fetchLog := fetchLog s; nextReq := nextReq s;
     canFetchTimers := canFetchTimers s; advanceTimers := advanceTimers s |}.
Definition set_likedPapers (v : list Paper) (s : State) : State :=
  {| papers := papers s; currentPaperIndex := currentPaperIndex s; likedPapers := v;
     isLoading := isLoading s; currentSearchTerm := currentSearchTerm s; hasMorePapers := hasMorePapers s;
     interactionState := interactionState s; touchStartX := touchStartX s; touchCurrentX := touchCurrentX s;
     touchStartY := touchStartY s; canFetchMoreRef := canFetchMoreRef s; cardWidth := cardWidth s;
     inflight := inflight s; fetchLog := fetchLog s; nextReq := nextReq s;
     canFetchTimers := canFetchTimers s; advanceTimers := advanceTimers s |}.
Definition set_isLoading (v : bool) (s : State) : State :=
  {| papers := papers s; currentPaperIndex := currentPaperIndex s; likedPapers := likedPapers s;
     isLoading := v; currentSearchTerm := currentSearchTerm s; hasMorePapers := hasMorePapers s;
     interactionState := interactionState s; touchStartX := touchStartX s; touchCurrentX := touchCurrentX s;
     touchStartY := touchStartY s; canFetchMoreRef := canFetchMoreRef s; cardWidth := cardWidth s;
     inflight := inflight s; fetchLog := fetchLog s; nextReq := nextReq s;
     canFetchTimers := canFetchTimers s; advanceTimers := advanceTimers s |}.
Definition set_currentSearchTerm (v : string) (s : State) : State :=
  {| papers := papers s; currentPaperIndex := currentPaperIndex s; likedPapers := likedPapers s;
     isLoading := isLoading s; currentSearchTerm := v; hasMorePapers := hasMorePapers s;
     interactionState := interactionState s; touchStartX := touchStartX s; touchCurrentX := touchCurrentX s;
     touchStartY := touchStartY s; canFetchMoreRef := canFetchMoreRef s; cardWidth := cardWidth s;
     inflight := inflight s; fetchLog := fetchLog s; nextReq := nextReq s;
     canFetchTimers := canFetchTimers s; advanceTimers := advanceTimers s |}.
Definition set_hasMorePapers (v : bool) (s : State) : State :=
  {| papers := papers s; currentPaperIndex := currentPaperIndex s; likedPapers := likedPapers s;
     isLoading := isLoading s; currentSearchTerm := currentSearchTerm s; hasMorePapers := v;
     interactionState := interactionState s; touchStartX := touchStartX s; touchCurrentX := touchCurrentX s;
     touchStartY := touchStartY s; canFetchMoreRef := canFetchMoreRef s; cardWidth := cardWidth s;
     inflight := inflight s; fetchLog := fetchLog s; nextReq := nextReq s;
     canFetchTimers := canFetchTimers s; advanceTimers := advanceTimers s |}.
Definition set_interactionState (v : Interaction) (s : State) : State :=
  {| papers := papers s; currentPaperIndex := currentPaperIndex s; likedPapers := likedPapers s;
     isLoading := isLoading s; currentSearchTerm := currentSearchTerm s; hasMorePapers := hasMorePapers s;
     interactionState := v; touchStartX := touchStartX s; touchCurrentX := touchCurrentX s;
     touchStartY := touchStartY s; canFetchMoreRef := canFetchMoreRef s; cardWidth := cardWidth s;
     inflight := inflight s; fetchLog := fetchLog s; nextReq := nextReq s;
     canFetchTimers := canFetchTimers s; advanceTimers := advanceTimers s |}.
Definition set_touchStartX (v : option Z) (s : State) : State :=
  {| papers := papers s; currentPaperIndex := currentPaperIndex s; likedPapers := likedPapers s;
     isLoading := isLoading s; currentSearchTerm := currentSearchTerm s; hasMorePapers := hasMorePapers s;
     interactionState := interactionState s; touchStartX := v; touchCurrentX := touchCurrentX s;
     touchStartY := touchStartY s; canFetchMoreRef := canFetchMoreRef s; cardWidth := cardWidth s;
     inflight := inflight s; fetchLog := fetchLog s; nextReq := nextReq s;
     canFetchTimers := canFetchTimers s; advanceTimers := advanceTimers s |}.
Definition set_touchCurrentX (v : option Z) (s : State) : State :=
  {| papers := papers s; currentPaperIndex := currentPaperIndex s; likedPapers := likedPapers s;
     isLoading := isLoading s; currentSearchTerm := currentSearchTerm s; hasMorePapers := hasMorePapers s;
     interactionState := interactionState s; touchStartX := touchStartX s; touchCurrentX := v;
     touchStartY := touchStartY s; canFetchMoreRef := canFetchMoreRef s; cardWidth := cardWidth s;
     inflight := inflight s; fetchLog := fetchLog s; nextReq := nextReq s;
     canFetchTimers := canFetchTimers s; advanceTimers := advanceTimers s |}.
Definition set_touchStartY (v : option Z) (s : State) : State :=
  {| papers := papers s; currentPaperIndex := currentPaperIndex s; likedPapers := likedPapers s;
     isLoading := isLoading s; currentSearchTerm := currentSearchTerm s; hasMorePapers := hasMorePapers s;
     interactionState := interactionState s; touchStartX := touchStartX s; touchCurrentX := touchCurrentX s;
     touchStartY := v; canFetchMoreRef := canFetchMoreRef s; cardWidth := cardWidth s;
     inflight := inflight s; fetchLog := fetchLog s; nextReq := nextReq s;
     canFetchTimers := canFetchTimers s; advanceTimers := advanceTimers s |}.
Definition set_canFetchMoreRef (v : bool) (s : State) : State :=
  {| papers := papers s; currentPaperIndex := currentPaperIndex s; likedPapers := likedPapers s;
     isLoading := isLoading s; currentSearchTerm := currentSearchTerm s; hasMorePapers := hasMorePapers s;
     interactionState := interactionState s; touchStartX := touchStartX s; touchCurrentX := touchCurrentX s;
     touchStartY := touchStartY s; canFetchMoreRef := v; cardWidth := cardWidth s;
     inflight := inflight s; fetchLog := fetchLog s; nextReq := nextReq s;
     canFetchTimers := canFetchTimers s; advanceTimers := advanceTimers s |}.
Definition set_cardWidth (v : Z) (s : State) : State :=
  {| papers := papers s; currentPaperIndex := currentPaperIndex s; likedPapers := likedPapers s;
     isLoading := isLoading s; currentSearchTerm := currentSearchTerm s; hasMorePapers := hasMorePapers s;
     interactionState := interactionState s; touchStartX := touchStartX s; touchCurrentX := touchCurrentX s;
     touchStartY := touchStartY s; canFetchMoreRef := canFetchMoreRef s; cardWidth := v;
     inflight := inflight s; fetchLog := fetchLog s; nextReq := nextReq s;
     canFetchTimers := canFetchTimers s; advanceTimers := advanceTimers s |}.
Definition set_inflight (v : list Request) (s : State) : State :=
  {| papers := papers s; currentPaperIndex := currentPaperIndex s; likedPapers := likedPapers s;
     isLoading := isLoading s; currentSearchTerm := currentSearchTerm s; hasMorePapers := hasMorePapers s;
     interactionState := interactionState s; touchStartX := touchStartX s; touchCurrentX := touchCurrentX s;
     touchStartY := touchStartY s; canFetchMoreRef := canFetchMoreRef s; cardWidth := cardWidth s;
     inflight := v; fetchLog := fetchLog s; nextReq := nextReq s;
     canFetchTimers := canFetchTimers s; advanceTimers := advanceTimers s |}.
Definition set_fetchLog (v : list Request) (s : State) : State :=
  {| papers := papers s; currentPaperIndex := currentPaperIndex s; likedPapers := likedPapers s;
     isLoading := isLoading s; currentSearchTerm := currentSearchTerm s; hasMorePapers := hasMorePapers s;
     interactionState := interactionState s; touchStartX := touchStartX s; touchCurrentX := touchCurrentX s;
     touchStartY := touchStartY s; canFetchMoreRef := canFetchMoreRef s; cardWidth := cardWidth s;
     inflight := inflight s; fetchLog := v; nextReq := nextReq s;
     canFetchTimers := canFetchTimers s; advanceTimers := advanceTimers s |}.
Definition set_nextReq (v : nat) (s : State) : State :=
  {| papers := papers s; currentPaperIndex := currentPaperIndex s; likedPapers := likedPapers s;
     isLoading := isLoading s; currentSearchTerm := currentSearchTerm s; hasMorePapers := hasMorePapers s;
     interactionState := interactionState s; touchStartX := touchStartX s; touchCurrentX := touchCurrentX s;
     touchStartY := touchStartY s; canFetchMoreRef := canFetchMoreRef s; cardWidth := cardWidth s;
     inflight := inflight s; fetchLog := fetchLog s; nextReq := v;
     canFetchTimers := canFetchTimers s; advanceTimers := advanceTimers s |}.
Definition set_canFetchTimers (v : nat) (s : State) : State :=
  {| papers := papers s; currentPaperIndex := currentPaperIndex s; likedPapers := likedPapers s;
     isLoading := isLoading s; currentSearchTerm := currentSearchTerm s; hasMorePapers := hasMorePapers s;
     interactionState := interactionState s; touchStartX := touchStartX s; touchCurrentX := touchCurrentX s;
     touchStartY := touchStartY s; canFetchMoreRef := canFetchMoreRef s; cardWidth := cardWidth s;
     inflight := inflight s; fetchLog := fetchLog s; nextReq := nextReq s;
     canFetchTimers := v; advanceTimers := advanceTimers s |}.
Definition set_advanceTimers (v : list nat) (s : State) : State :=
  {| papers := papers s; currentPaperIndex := currentPaperIndex s; likedPapers := likedPapers s;
     isLoading := isLoading s; currentSearchTerm := currentSearchTerm s; hasMorePapers := hasMorePapers s;
     interactionState := interactionState s; touchStartX := touchStartX s; touchCurrentX := touchCurrentX s;
     touchStartY := touchStartY s; canFetchMoreRef := canFetchMoreRef s; cardWidth := cardWidth s;
     inflight := inflight s; fetchLog := fetchLog s; nextReq := nextReq s;
     canFetchTimers := canFetchTimers s; advanceTimers := v |}.

Definition is_real (p : Paper) : bool := negb (isEndOfFeedCard p).

Definition is_end_id (p : Paper) : bool := String.eqb (id p) END_OF_FEED_CARD_ID_PAGE.

(** The query string built by [fetchPapers] for [fetch(apiUrl)]. *)
Definition request_params (r : Request) : PapersRoute.SearchParams :=
  ((if String.eqb (req_term r) "" then [] else [("query", req_term r)]) ++
   [("start", string_of_nat (req_offset r));
    ("max_results", string_of_nat MAX_RESULTS_PER_FETCH_PAGE)])%list.

(** [fetchPapers(isInitialOrNewSearch, termToSearchForFetch, offsetForFetch)]
    up to the [await fetch(apiUrl)]: guards, state resets, and the issued
    request. *)
Definition fetchPapers (isInitialOrNewSearch : bool) (termToSearchForFetch : string)
    (offsetForFetch : nat) (s : State) : State :=
  let effectiveSearchTermForFetch := trim termToSearchForFetch in
  if negb isInitialOrNewSearch &&
     (isLoading s || negb (hasMorePapers s) || negb (canFetchMoreRef s))
  then s
  else
    let r := {| req_no := nextReq s; req_initial := isInitialOrNewSearch;
                req_term := effectiveSearchTermForFetch; req_offset := offsetForFetch;
                req_closure_term := currentSearchTerm s |} in
    let s1 := set_canFetchMoreRef false (set_isLoading true s) in
    let s2 := if isInitialOrNewSearch
              then set_hasMorePapers true (set_currentPaperIndex 0 (set_papers [] s1))
              else s1 in
    let s3 := set_interactionState neutral s2 in
    set_nextReq (S (nextReq s))
      (set_fetchLog (fetchLog s ++ [r])%list (set_inflight (inflight s ++ [r])%list s3)).

(** The placeholder pushed after the last page. *)
Definition end_card (closureTerm : string) : Paper :=
  let endMsg := if String.eqb closureTerm "" then "全ての論文を見終わりました。"
                else "「" ++ closureTerm ++ "」の検索結果は以上です。" in
  {| id := END_OF_FEED_CARD_ID_PAGE; title := "お知らせ"; summary := endMsg;
     authors := []; published := ""; updated := ""; pdfLink := ""; categories := [];
     aiSummary := None; isEndOfFeedCard := true; endOfFeedMessage := Some endMsg |}.

(** The updater given to [setPapers] when a page [data] arrives. *)
Definition merge_page (isInitialOrNewSearch : bool) (closureTerm : string)
    (data prevPapers : list Paper) : list Paper :=
  let morePapersPotentiallyAvailableBasedOnAPI :=
    Nat.eqb (List.length data) MAX_RESULTS_PER_FETCH_PAGE in
  let currentRealPapers := filter is_real prevPapers in
  let updatedPapersArray :=
    if isInitialOrNewSearch then data
    else (currentRealPapers ++
          filter (fun p => negb (existsb (fun q => String.eqb (id q) (id p)) currentRealPapers)) data)%list in
  if negb morePapersPotentiallyAvailableBasedOnAPI &&
     Nat.ltb 0 (List.length updatedPapersArray) &&
     negb (existsb is_end_id updatedPapersArray)
  then (updatedPapersArray ++ [end_card closureTerm])%list
  else updatedPapersArray.

Inductive FetchResult := FOk (data : list Paper) | FErr.

(** The rest of [fetchPapers], after the response of request [rid]. *)
Definition complete (rid : nat) (res : FetchResult) (s : State) : State :=
  match find (fun q => Nat.eqb (req_no q) rid) (inflight s) with
  | None => s
  | Some r =>
      let s0 := set_inflight (filter (fun q => negb (Nat.eqb (req_no q) rid)) (inflight s)) s in
      let s1 :=
        match res with
        | FOk data =>
            set_hasMorePapers (Nat.eqb (List.length data) MAX_RESULTS_PER_FETCH_PAGE)
              (set_papers (merge_page (req_initial r) (req_closure_term r) data (papers s0)) s0)
        | FErr =>
            let s' := set_hasMorePapers false s0 in
            if req_initial r then set_papers [] s' else s'
        end in
      set_canFetchTimers (S (canFetchTimers s1)) (set_isLoading false s1)
  end.

(** The additional-load [useEffect]. *)
Definition loadMoreEffect (s : State) : State :=
  let actualPapersLength := List.length (filter is_real (papers s)) in
  let thresholdIndex :=
    if Nat.ltb VISIBLE_CARDS_IN_STACK_PAGE actualPapersLength
    then actualPapersLength - VISIBLE_CARDS_IN_STACK_PAGE
    else if Nat.ltb 0 actualPapersLength then actualPapersLength - 1 else 0 in
  let needsMoreFetch := Nat.ltb 0 actualPapersLength && Nat.leb thresholdIndex (currentPaperIndex s) in
  let alreadyHasEndOfFeedCard := existsb is_end_id (papers s) in
  if needsMoreFetch && negb (isLoading s) && hasMorePapers s &&
     negb alreadyHasEndOfFeedCard && canFetchMoreRef s
  then fetchPapers false (currentSearchTerm s) actualPapersLength s
  else s.

(** [handleSearchSubmit]: the running [fetchPapers] still sees the old
    [currentSearchTerm]; the mount effect and the reload button are the
    same call with the current term. *)
Definition handleSearchSubmit (searchQuery : string) (s : State) : State :=
  let term := trim searchQuery in
  set_currentSearchTerm term (fetchPapers true term 0 s).

Definition resetCardInteraction (s : State) : State :=
  set_touchStartY None (set_touchCurrentX None (set_touchStartX None (set_interactionState neutral s))).

(** [goToNextPaper], with the [papers.length] its closure captured. *)
Definition goToNextPaper (capturedLength : nat) (s : State) : State :=
  let s1 := resetCardInteraction s in
  set_currentPaperIndex (Nat.min (S (currentPaperIndex s1)) capturedLength) s1.

(** [handleLike(paper)]: store the paper, start the fly-out, and schedule
    [goToNextPaper] 600 ms later. *)
Definition handleLike (paper : Paper) (s : State) : State :=
  let s1 := set_likedPapers (Liked.addLikedPaper (likedPapers s) paper) s in
  let s2 := set_interactionState
              {| isSwiping := false; flyingDirection := Some Right;
                 feedbackColor := FbPinkLike; cardTransform := TNone |} s1 in
  set_advanceTimers (advanceTimers s2 ++ [List.length (papers s2)])%list s2.

Definition handleDislike (s : State) : State :=
  let s1 := set_interactionState
              {| isSwiping := false; flyingDirection := Some Left;
                 feedbackColor := FbLimeDislike; cardTransform := TNone |} s in
  set_advanceTimers (advanceTimers s1 ++ [List.length (papers s1)])%list s1.

(** [topCardRef.current] is set when the stack is rendered: some real
    paper exists and [papers[currentPaperIndex]] exists. *)
Definition top_card_present (s : State) : bool :=
  existsb is_real (papers s) &&
  match nth_error (papers s) (currentPaperIndex s) with Some _ => true | None => false end.

Definition flying (s : State) : bool :=
  match flyingDirection (interactionState s) with Some _ => true | None => false end.

Definition handleTouchStart (x y : Z) (s : State) : State :=
  if flying s then s
  else
    let i := interactionState s in
    let s1 := set_interactionState
                {| isSwiping := true; cardTransform := TNone; feedbackColor := FbNone;
                   flyingDirection := flyingDirection i |} s in
    set_touchStartY (Some y) (set_touchCurrentX (Some x) (set_touchStartX (Some x) s1)).

Definition handleTouchMove (x y : Z) (s : State) : State :=
  match touchStartX s, touchStartY s with
  | Some sx, Some sy =>
      if negb (top_card_present s) || flying s || negb (isSwiping (interactionState s)) then s
      else
        let s1 := set_touchCurrentX (Some x) s in
        let diffX := (x - sx)%Z in
        let diffY := Z.abs (y - sy) in
        (* diffY > Math.abs(diffX) * 1.8 && diffY > 15 *)
        if Z.ltb (18 * Z.abs diffX) (10 * diffY) && Z.ltb 15 diffY then
          (if isSwiping (interactionState s1) then resetCardInteraction s1 else s1)
        else
          let i := interactionState s1 in
          set_interactionState
            {| isSwiping := isSwiping i; flyingDirection := flyingDirection i;
               cardTransform := TDrag diffX (cardWidth s1);
               feedbackColor :=
                 if Z.ltb SWIPE_THRESHOLD_PAGE (Z.abs diffX * 2)
                 then (if Z.ltb 0 diffX then FbPinkLike else FbLimeDislike)
                 else FbNone |} s1
  | _, _ => s
  end.

(** [handleTouchEnd] (also the [onTouchCancel] handler). *)
Definition handleTouchEnd (s : State) : State :=
  let i := interactionState s in
  if negb (isSwiping i) && negb (flying s) then s
  else if flying s then s
  else
    match touchStartX s, touchCurrentX s with
    | Some sx, Some cx =>
        let diffX := (cx - sx)%Z in
        match nth_error (papers s) (currentPaperIndex s) with
        | None => resetCardInteraction s
        | Some currentPaper =>
            if Z.ltb SWIPE_THRESHOLD_PAGE (Z.abs diffX) then
              (if Z.ltb 0 diffX then handleLike currentPaper s else handleDislike s)
            else resetCardInteraction s
        end
    | _, _ => resetCardInteraction s
    end.

(** The like / dislike buttons of the [PaperCard] at stack position
    [pos] (0 = top).  An end-of-feed card has no buttons. *)
Definition card_at (pos : nat) (s : State) : option Paper :=
  if existsb is_real (papers s) && Nat.ltb pos VISIBLE_CARDS_IN_STACK_PAGE then
    match nth_error (papers s) (currentPaperIndex s + pos) with
    | Some p => if isEndOfFeedCard p then None else Some p
    | None => None
    end
  else None.

Definition clickLike (pos : nat) (s : State) : State :=
  match card_at pos s with Some p => handleLike p s | None => s end.

Definition clickDislike (pos : nat) (s : State) : State :=
  match card_at pos s with Some _ => handleDislike s | None => s end.

(** Timers: the 600 ms [goToNextPaper] and the 300 ms re-enable of
    [canFetchMoreRef]. *)
Definition fireAdvanceTimer (s : State) : State :=
  match advanceTimers s with
  | len :: rest => goToNextPaper len (set_advanceTimers rest s)
  | [] => s
  end.

Definition fireCanFetchTimer (s : State) : State :=
  match canFetchTimers s with
  | S n => set_canFetchMoreRef true (set_canFetchTimers n s)
  | 0 => s
  end.

Inductive Event :=
| EvSearch (q : string)
| EvLoadMoreEffect
| EvResponse (rid : nat) (res : FetchResult)
| EvCanFetchTimer
| EvTouchStart (x y : Z)
| EvTouchMove (x y : Z)
| EvTouchEnd
| EvClickLike (pos : nat)
| EvClickDislike (pos : nat)
| EvAdvanceTimer.

Definition step (s : State) (e : Event) : State :=
  match e with
  | EvSearch q => handleSearchSubmit q s
  | EvLoadMoreEffect => loadMoreEffect s
  | EvResponse rid res => complete rid res s
  | EvCanFetchTimer => fireCanFetchTimer s
  | EvTouchStart x y => handleTouchStart x y s
  | EvTouchMove x y => handleTouchMove x y s
  | EvTouchEnd => handleTouchEnd s
  | EvClickLike pos => clickLike pos s
  | EvClickDislike pos => clickDislike pos s
  | EvAdvanceTimer => fireAdvanceTimer s
  end.

Definition run (s : State) (es : list Event) : State := fold_left step es s.

(** A [PaperSummary] of the route as the page reads it from the JSON
    ([aiSummary] and the end-of-feed fields absent). *)
Definition paper_of_summary (p : PapersRoute.PaperSummary) : Paper :=
  {| id := PapersRoute.ps_id p; title := PapersRoute.ps_title p;
     summary := PapersRoute.ps_summary p; authors := PapersRoute.ps_authors p;
     published := PapersRoute.ps_published p; updated := PapersRoute.ps_updated p;
     pdfLink := PapersRoute.ps_pdfLink p; categories := PapersRoute.ps_categories p;
     aiSummary := None; isEndOfFeedCard := false; endOfFeedMessage := None |}.

End Page.

(* ------------------------------------------------------------------ *)
(** ** Summaries: the client call and the [POST] of the summarize route *)

Module Summarize.

(** [generateAiSummary(paperId, pdfUrl, paperTitle)] of the home page:
    [None] when it returns before any side effect, otherwise the new
    [isSummarizing] marker and the JSON body posted to [/api/summarize]. *)
Definition generateAiSummary (isSummarizing : option string) (papers : list Paper)
    (paperId pdfUrl paperTitle : string) : option (string * (string * string)) :=
  let busy := match isSummarizing with Some m => negb (String.eqb m "") | None => false end in
  if busy || String.eqb pdfUrl "" then None
  else
    match find (fun p => String.eqb (id p) paperId) papers with
    | Some p => match aiSummary p with
                | Some sm => if String.eqb sm "" then Some (paperId, (pdfUrl, paperTitle)) else None
                | None => Some (paperId, (pdfUrl, paperTitle))
                end
    | None => Some (paperId, (pdfUrl, paperTitle))
    end.

(** A JSON value as destructured from the request body. *)
Inductive JsVal :=
| JsString (s : string)
| JsNumber (z : Z)
| JsBool (b : bool)
| JsNull
| JsUndefined
| JsObject.

Definition truthy (v : JsVal) : bool :=
  match v with
  | JsString s => negb (String.eqb s "")
  | JsNumber z => negb (Z.eqb z 0)
  | JsBool b => b
  | JsNull | JsUndefined => false
  | JsObject => true
  end.

(** [await request.json()] followed by [const { pdfUrl, paperTitle } = ...]:
    either the two fields or the message of the exception thrown. *)
Inductive Body := BodyOk (pdfUrl paperTitle : JsVal) | BodyErr (message : string).

(** [Forward] stands for the download, upload and generation steps that
    follow the checks. *)
Inductive Response :=
| Resp (status : Z) (error : string)
| Forward (pdfUrl safePaperTitle : string).

(** [POST(request)]; [GEMINI_API_KEY] is read from the environment. *)
Definition POST (GEMINI_API_KEY : option string) (body : Body) : Response :=
  let keySet := match GEMINI_API_KEY with Some k => negb (String.eqb k "") | None => false end in
  if negb keySet then Resp 500 "サーバー設定エラー: APIキーが設定されていません。"
  else
    match body with
    | BodyErr msg => Resp 500 ("要約生成中にサーバーエラーが発生しました: " ++ msg)
    | BodyOk pdfUrl paperTitle =>
        match pdfUrl with
        | JsString u =>
            if String.eqb u "" then Resp 400 "要約する論文のPDF URLが必要です。"
            else Forward u (match paperTitle with JsString t => t | _ => "提示された論文" end)
        | _ => Resp 400 "要約する論文のPDF URLが必要です。"
        end
    end.

End Summarize.

(* ------------------------------------------------------------------ *)
(** ** The other operations of the liked-paper store
    ([LikedPapersContext.tsx]) *)

Module LikedStore.

(** [setLikedPapers(prev => prev.filter(p => p.id !== paperId))] *)
Definition removeLikedPaper (prevPapers : list Paper) (paperId : string) : list Paper :=
  filter (fun p => negb (String.eqb (id p) paperId)) prevPapers.

(** [isPaperLiked(paperId)]: [false] while the saved list is being read. *)
Definition isPaperLiked (isLoadingPersistence : bool) (likedPapers : list Paper)
    (paperId : string) : bool :=
  if isLoadingPersistence then false
  else existsb (fun p => String.eqb (id p) paperId) likedPapers.

(** [{ ...p, aiSummary: v }]; [None] is [undefined]. *)
Definition with_aiSummary (p : Paper) (v : option string) : Paper :=
  {| id := id p; title := title p; summary := summary p; authors := authors p;
     published := published p; updated := updated p; pdfLink := pdfLink p;
     categories := categories p; aiSummary := v; isEndOfFeedCard := isEndOfFeedCard p;
     endOfFeedMessage := endOfFeedMessage p |}.

(** [setLikedPapers(prev => prev.map(p => p.id === paperId ? { ...p, aiSummary } : p))] *)
Definition updateLikedPaperSummary (prevPapers : list Paper) (paperId summaryText : string)
    : list Paper :=
  map (fun p => if String.eqb (id p) paperId then with_aiSummary p (Some summaryText) else p)
    prevPapers.

End LikedStore.

(* ------------------------------------------------------------------ *)
(** ** The rendering and the remaining callbacks of the home page
    ([src/unnamed/part_012]) *)

Module PageView.
Import Page.

(** [papers.slice(currentPaperIndex, currentPaperIndex + VISIBLE_CARDS_IN_STACK_PAGE)] *)
Definition papersInStack (s : State) : list Paper :=
  firstn VISIBLE_CARDS_IN_STACK_PAGE (skipn (currentPaperIndex s) (papers s)).

(** A [<PaperCard>] of the stack, with the [indexInStack] and [isTopCard]
    the page computes for it. *)
Record StackCard := { sc_paper : Paper; indexInStack : Z; isTopCard : bool }.

(** [papersInStack.slice().reverse().map((paper, i) => ...)] from position
    [k] of the reversed stack on:
    [indexInStack = (VISIBLE_CARDS_IN_STACK_PAGE - 1) - i],
    [isTopCard = indexInStack === 0]. *)
Fixpoint stack_cards_from (k : nat) (reversed : list Paper) : list StackCard :=
  match reversed with
  | [] => []
  | p :: r =>
      let i := (Z.of_nat VISIBLE_CARDS_IN_STACK_PAGE - 1 - Z.of_nat k)%Z in
      {| sc_paper := p; indexInStack := i; isTopCard := Z.eqb i 0 |} :: stack_cards_from (S k) r
  end.

(** The cards rendered in [<main>], which is present only when
    [papers.some(p => !p.isEndOfFeedCard)]. *)
Definition rendered_cards (s : State) : list StackCard :=
  if existsb is_real (papers s) then stack_cards_from 0 (rev (papersInStack s)) else [].

(** The cards given touch handlers ([onTouchStart={isTopCard ? handleTouchStart : undefined}],
    passed on by [PaperCard] only when [isTopCard]); the same cards get
    [cardRef={topCardRef}]. *)
Definition touch_cards (s : State) : list StackCard := filter isTopCard (rendered_cards s).

Inductive StatusDisplay := StatusNone | StatusLoading | StatusEmpty.

(** [renderStatusDisplay()]: nothing, the loading box, or the box with
    the reload button. *)
Definition renderStatusDisplay (s : State) : StatusDisplay :=
  let stack := papersInStack s in
  let realCount := List.length (filter is_real (papers s)) in
  if Nat.ltb 0 (List.length stack) && negb (forallb isEndOfFeedCard stack) then StatusNone
  else if isLoading s && Nat.eqb realCount 0 then StatusLoading
  else if negb (isLoading s) && Nat.eqb realCount 0 && negb (existsb is_end_id (papers s))
  then StatusEmpty
  else StatusNone.

(** The reload button: [fetchPapers(true, currentSearchTerm, 0)]. *)
Definition reloadClick (s : State) : State := fetchPapers true (currentSearchTerm s) 0 s.

(** The mount effect: [if (papers.length === 0 && currentSearchTerm === '') fetchPapers(true, '', 0)]. *)
Definition mountEffect (s : State) : State :=
  if Nat.eqb (List.length (papers s)) 0 && String.eqb (currentSearchTerm s) ""
  then fetchPapers true "" 0 s else s.

(** The success branch of [generateAiSummary]:
    [setPapers(prev => prev.map(p => p.id === paperId ? { ...p, aiSummary: data.summary } : p))]. *)
Definition storeAiSummary (paperId : string) (dataSummary : option string) (ps : list Paper)
    : list Paper :=
  map (fun p => if String.eqb (id p) paperId then LikedStore.with_aiSummary p dataSummary else p) ps.

End PageView.

(* ------------------------------------------------------------------ *)
(** ** The summarize route after the request checks ([src/unnamed/part_000])

    The calls to the outside world are inputs: the result of
    [new URL(pdfUrl)] (the [path.basename] of its [pathname], or the
    exception), of [downloadFile], of [ai.files.upload] and of
    [ai.models.generateContent].  The output is the reply and the list of
    external actions in the order they are taken.  The temporary file
    [path.join(os.tmpdir(), uniqueFileName)] is named by [uniqueFileName]. *)

Module SummarizePipeline.

(** The character class [[a-zA-Z0-9_.-]]. *)
Definition is_safe_char (c : ascii) : bool :=
  let n := nat_of_ascii c in
  (Nat.leb 97 n && Nat.leb n 122) || (Nat.leb 65 n && Nat.leb n 90) ||
  (Nat.leb 48 n && Nat.leb n 57) || Nat.eqb n 95 || Nat.eqb n 46 || Nat.eqb n 45.

(** [.replace(/[^a-zA-Z0-9_.-]/g, '_')] *)
Fixpoint sanitize (s : string) : string :=
  match s with
  | EmptyString => EmptyString
  | String c r => String (if is_safe_char c then c else "_"%char) (sanitize r)
  end.

(** [`summary_paper_${Date.now()}_${path.basename(new URL(pdfUrl).pathname) || 'downloaded.pdf'}`.replace(...)] *)
Definition uniqueFileName (now : nat) (basename : string) : string :=
  sanitize ("summary_paper_" ++ string_of_nat now ++ "_" ++
            (if String.eqb basename "" then "downloaded.pdf" else basename)).

(** A thrown value: an [Error] with its message, or anything else. *)
Inductive Thrown := ThrownError (message : string) | ThrownOther.

(** [error instanceof Error ? error.message : '不明なサーバーエラーが発生しました。'] *)
Definition errorMessage (e : Thrown) : string :=
  match e with
  | ThrownError m => m
  | ThrownOther => "不明なサーバーエラーが発生しました。"
  end.

Inductive UrlOutcome := UrlThrows (e : Thrown) | UrlBasename (basename : string).

(** The [fetch(url)] of [downloadFile]: a response that is not ok (its
    [status] and [statusText]), an exception (of [fetch] or
    [fs.writeFile]), or the file written. *)
Inductive DownloadOutcome := DlNotOk (status : nat) (statusText : string) | DlThrows (e : Thrown) | DlOk.

(** [ai.files.upload]: an exception or the response's [name]. *)
Inductive UploadOutcome := UpThrows (e : Thrown) | UpOk (name : option string).

(** [ai.models.generateContent]: an exception or [generationResponse.text]. *)
Inductive GenerateOutcome := GenThrows (e : Thrown) | GenOk (text : option string).

Inductive Action :=
| ADownload (url file : string)
| AUpload (file : string)
| AGenerate (paperTitle : string)
| ADeleteUploaded (name : string)
| AUnlinkLocal (file : string).

Inductive Reply := RJson (status : Z) (error : string) | RSummary (summary : string).

(** [downloadFile(url, outputPath)]: the exception it ends with, if any. *)
Definition downloadFile (dl : DownloadOutcome) : option Thrown :=
  match dl with
  | DlNotOk st txt =>
      Some (ThrownError ("Failed to download file: " ++ string_of_nat st ++ " " ++ txt))
  | DlThrows e => Some e
  | DlOk => None
  end.

(** The outer [catch (error)]. *)
Definition catch_reply (e : Thrown) : Reply :=
  RJson 500 ("要約生成中にサーバーエラーが発生しました: " ++ errorMessage e).

(** The inner [try]: the reply it returns or the exception it throws, the
    [uploadedFileResponse.name] if the upload returned, and the actions. *)
Definition try_block (pdfUrl safePaperTitle file : string) (dl : DownloadOutcome)
    (up : UploadOutcome) (gen : GenerateOutcome)
    : (Reply + Thrown) * option (option string) * list Action :=
  match downloadFile dl with
  | Some e => (inr e, None, [ADownload pdfUrl file])
  | None =>
      match up with
      | UpThrows e => (inr e, None, [ADownload pdfUrl file; AUpload file])
      | UpOk name =>
          let acts := [ADownload pdfUrl file; AUpload file; AGenerate safePaperTitle] in
          match gen with
          | GenThrows e => (inr e, Some name, acts)
          | GenOk text =>
              let empty := RJson 500 "要約の生成に失敗しました。APIからの応答が空でした。" in
              match text with
              | Some t => (inl (if String.eqb t "" then empty else RSummary t), Some name, acts)
              | None => (inl empty, Some name, acts)
              end
          end
      end
  end.

(** The [finally]: delete the uploaded file when it has a (non-empty)
    name, then remove the local file; their errors are only logged. *)
Definition cleanup (uploaded : option (option string)) (file : string) : list Action :=
  (match uploaded with
   | Some (Some n) => if String.eqb n "" then [] else [ADeleteUploaded n]
   | _ => []
   end ++ [AUnlinkLocal file])%list.

(** Everything after the checks of [POST]. *)
Definition summarize_steps (now : nat) (pdfUrl safePaperTitle : string) (url : UrlOutcome)
    (dl : DownloadOutcome) (up : UploadOutcome) (gen : GenerateOutcome) : Reply * list Action :=
  match url with
  | UrlThrows e => (catch_reply e, [])
  | UrlBasename b =>
      let file := uniqueFileName now b in
      let '(outcome, uploaded, acts) := try_block pdfUrl safePaperTitle file dl up gen in
      ((match outcome with inl r => r | inr e => catch_reply e end),
       (acts ++ cleanup uploaded file)%list)
  end.

(** The whole [POST]. *)
Definition POST_full (GEMINI_API_KEY : option string) (body : Summarize.Body) (now : nat)
    (url : UrlOutcome) (dl : DownloadOutcome) (up : UploadOutcome) (gen : GenerateOutcome)
    : Reply * list Action :=
  match Summarize.POST GEMINI_API_KEY body with
  | Summarize.Resp st err => (RJson st err, [])
  | Summarize.Forward u t => summarize_steps now u t url dl up gen
  end.

End SummarizePipeline.

(* ================================================================== *)
(** * Properties *)

Module GestureProps.
Import Page.

(** Facts about [resetCardInteraction] used below. *)
Lemma reset_fields (s : State) :
  interactionState (resetCardInteraction s) = neutral /\
  touchStartX (resetCardInteraction s) = None /\
  touchCurrentX (resetCardInteraction s) = None /\
  touchStartY (resetCardInteraction s) = None /\
  papers (resetCardInteraction s) = papers s /\
  currentPaperIndex (resetCardInteraction s) = currentPaperIndex s /\
  likedPapers (resetCardInteraction s) = likedPapers s /\
  advanceTimers (resetCardInteraction s) = advanceTimers s.
Proof. repeat split. Qed.

(** C1: on release of a drag with final horizontal displacement [dx]
    the card flies right (and the paper is liked) iff [dx > 70], flies
    left iff [dx < -70], and otherwise only the gesture is reset: the
    papers, the cursor, the liked list and the pending advances are left
    as they were. *)
Theorem release_commit_threshold (s : State) (sx cx : Z) (p : Paper)
    (Hsw : isSwiping (interactionState s) = true)
    (Hfl : flyingDirection (interactionState s) = None)
    (Hsx : touchStartX s = Some sx) (Hcx : touchCurrentX s = Some cx)
    (Hp : nth_error (papers s) (currentPaperIndex s) = Some p) :
  let s' := handleTouchEnd s in
  let dx := (cx - sx)%Z in
  (flyingDirection (interactionState s') = Some Right <-> (dx > 70)%Z) /\
  (flyingDirection (interactionState s') = Some Left <-> (dx < -70)%Z) /\
  ((dx > 70)%Z -> likedPapers s' = Liked.addLikedPaper (likedPapers s) p /\
                  advanceTimers s' = (advanceTimers s ++ [List.length (papers s)])%list) /\
  ((dx < -70)%Z -> likedPapers s' = likedPapers s /\
                   advanceTimers s' = (advanceTimers s ++ [List.length (papers s)])%list) /\
  ((-70 <= dx <= 70)%Z -> s' = resetCardInteraction s /\ interactionState s' = neutral /\
                          papers s' = papers s /\ currentPaperIndex s' = currentPaperIndex s /\
                          likedPapers s' = likedPapers s /\ advanceTimers s' = advanceTimers s).
Proof.
  cbv zeta. unfold handleTouchEnd, flying.
  rewrite Hsw, Hfl, Hsx, Hcx, Hp. cbn -[Z.ltb Z.abs].
  unfold SWIPE_THRESHOLD_PAGE.
  destruct (Z.ltb_spec 70 (Z.abs (cx - sx))) as [Habs | Habs];
  [destruct (Z.ltb_spec 0 (cx - sx)) as [Hpos | Hpos] |].
  - repeat split; cbn; intros; try discriminate; try lia.
  - repeat split; cbn; intros; try discriminate; try lia.
  - repeat split; cbn; intros; try discriminate; try lia.
Qed.

(** Once the touch start is cleared, moves are ignored and a release
    changes nothing. *)
Lemma moves_after_reset (s : State) (ms : list (Z * Z))
    (Hx : touchStartX s = None) (Hn : interactionState s = neutral) :
  run s (map (fun '(a, b) => EvTouchMove a b) ms ++ [EvTouchEnd])%list = s.
Proof.
  unfold run. rewrite fold_left_app.
  assert (Hm : fold_left step (map (fun '(a, b) => EvTouchMove a b) ms) s = s).
  { induction ms as [| [a b] ms IH]; [reflexivity |].
    cbn [map fold_left]. unfold step at 2. unfold handleTouchMove. rewrite Hx. exact IH. }
  rewrite Hm. cbn. unfold handleTouchEnd, flying. rewrite Hn. reflexivity.
Qed.

(** C6: a move during a drag with [|dy| > 1.8 |dx|] and [|dy| > 15]
    resets the gesture at once, and whatever moves follow, the release
    commits nothing: the state is the one the reset left, with the liked
    list and the pending advances untouched. *)
Theorem vertical_scroll_never_commits (s : State) (sx sy x y : Z) (ms : list (Z * Z))
    (Hsw : isSwiping (interactionState s) = true)
    (Hfl : flyingDirection (interactionState s) = None)
    (Hsx : touchStartX s = Some sx) (Hsy : touchStartY s = Some sy)
    (Htop : top_card_present s = true)
    (Hv : (10 * Z.abs (y - sy) > 18 * Z.abs (x - sx))%Z)
    (H15 : (Z.abs (y - sy) > 15)%Z) :
  let s1 := handleTouchMove x y s in
  interactionState s1 = neutral /\ touchStartX s1 = None /\ touchCurrentX s1 = None /\
  likedPapers s1 = likedPapers s /\ advanceTimers s1 = advanceTimers s /\
  currentPaperIndex s1 = currentPaperIndex s /\
  run s1 (map (fun '(a, b) => EvTouchMove a b) ms ++ [EvTouchEnd])%list = s1.
Proof.
  cbv zeta.
  assert (Hs1 : handleTouchMove x y s = resetCardInteraction (set_touchCurrentX (Some x) s)).
  { unfold handleTouchMove, flying. rewrite Hsx, Hsy, Htop, Hfl, Hsw. cbn -[Z.ltb Z.abs Z.mul].
    destruct (Z.ltb_spec (18 * Z.abs (x - sx)) (10 * Z.abs (y - sy))); [| lia].
    destruct (Z.ltb_spec 15 (Z.abs (y - sy))); [| lia].
    cbn. rewrite Hsw. reflexivity. }
  rewrite Hs1.
  repeat split.
  apply moves_after_reset; reflexivity.
Qed.

End GestureProps.

Module LikedProps.
Import Liked.










End LikedProps.

Module RouteProps.
Import PapersRoute.

Lemma trim_empty : trim "" = "".
Proof. reflexivity. Qed.

(** A query made of one ideographic space (U+3000, bytes E3 80 80) is
    blank: the default category in submission-date order is asked for. *)
Lemma ideographic_space_query :
  let q := String (ascii_of_nat 227) (String (ascii_of_nat 128) (String (ascii_of_nat 128) "")) in
  trim q = "" /\ query_and_sort (Some q) = (DEFAULT_CATEGORY, "submittedDate").
Proof. vm_compute. split; reflexivity. Qed.

(** C8: with no [query] parameter or a blank one, arXiv is asked for the
    default category in submission-date order; with a non-blank one, for
    the trimmed text in relevance order.  Both revisions of the route. *)
Theorem upstream_query_and_sort (ps : SearchParams) :
  ((match get ps "query" with None => True | Some v => trim v = "" end) ->
     search_query (GET_upstream ps) = "cat:cs.AI" /\ sortBy (GET_upstream ps) = "submittedDate" /\
     search_query (GET_upstream_route ps) = "cat:cs.AI" /\
     sortBy (GET_upstream_route ps) = "submittedDate") /\
  (forall v, get ps "query" = Some v -> trim v <> "" ->
     search_query (GET_upstream ps) = trim v /\ sortBy (GET_upstream ps) = "relevance" /\
     search_query (GET_upstream_route ps) = trim v /\
     sortBy (GET_upstream_route ps) = "relevance").
Proof.
  unfold GET_upstream, GET_upstream_route, query_and_sort.
  split.
  - destruct (get ps "query") as [v |]; intros H; [| repeat split].
    rewrite H. cbn. rewrite andb_false_r. repeat split.
  - intros v Hq Hne. rewrite Hq.
    destruct (String.eqb_spec (trim v) "") as [He | _]; [contradiction |].
    destruct (String.eqb_spec v "") as [Hv | _].
    + subst v. contradiction.
    + repeat split.
Qed.

Lemma string_of_nat_inj (a b : nat) : string_of_nat a = string_of_nat b -> a = b.
Proof.
  unfold string_of_nat. intros H.
  assert (Hu : Some (Nat.to_uint a) = Some (Nat.to_uint b)).
  { rewrite <- !NilEmpty.usu, H. reflexivity. }
  injection Hu as Hu. apply Unsigned.to_uint_inj. exact Hu.
Qed.

Lemma string_of_nat_nonempty (n : nat) : String.eqb (string_of_nat n) "" = false.
Proof.
  destruct (String.eqb_spec (string_of_nat n) "") as [H | H]; [| reflexivity].
  exfalso. unfold string_of_nat in H.
  assert (Hu : Some (Nat.to_uint n) = Some Decimal.Nil).
  { rewrite <- NilEmpty.usu, H. reflexivity. }
  injection Hu as Hu.
  pose proof (Unsigned.of_to n) as Ho. rewrite Hu in Ho. cbn in Ho. subst n.
  discriminate Hu.
Qed.

(** C5: the revised route forwards the page's offset: for every request
    the home page issues, arXiv's [start] is the decimal offset and
    [max_results] is 10, so requests at different offsets ask for
    different windows. *)
Theorem start_forwarded (r : Page.Request) :
  start (GET_upstream (Page.request_params r)) = string_of_nat (Page.req_offset r) /\
  max_results (GET_upstream (Page.request_params r)) = "10" /\
  (forall r' : Page.Request, Page.req_offset r <> Page.req_offset r' ->
     start (GET_upstream (Page.request_params r)) <>
     start (GET_upstream (Page.request_params r'))).
Proof.
  assert (Hs : forall q : Page.Request,
             start (GET_upstream (Page.request_params q)) = string_of_nat (Page.req_offset q) /\
             max_results (GET_upstream (Page.request_params q)) = "10").
  { intros q. unfold GET_upstream, Page.request_params.
    destruct (String.eqb (Page.req_term q) ""); cbn -[string_of_nat query_and_sort];
      [| destruct (String.eqb_spec "start" "query"); [discriminate |] ];
      cbn -[string_of_nat query_and_sort];
      destruct (query_and_sort _); unfold or_default;
      rewrite string_of_nat_nonempty; split; reflexivity. }
  destruct (Hs r) as [H1 H2]. split; [exact H1 | split; [exact H2 |]].
  intros r' Hne Heq. destruct (Hs r') as [H1' _].
  rewrite H1, H1' in Heq. apply Hne, string_of_nat_inj, Heq.
Qed.

Lemma entry_to_paper_some (e : option ArxivEntry) :
  has_arxiv_id e = true <-> exists p, entry_to_paper e = Some p.
Proof.
  unfold has_arxiv_id, entry_to_paper.
  destruct e as [entryItem |]; [| split; intros H; [discriminate H | destruct H; discriminate]].
  destruct (entry_id entryItem) as [u |];
    [| split; intros H; [discriminate H | destruct H; discriminate]].
  destruct (abs_match u); split; intros H.
  - eexists. reflexivity.
  - reflexivity.
  - discriminate H.
  - destruct H; discriminate.
Qed.

Lemma entry_to_paper_none (e : option ArxivEntry) :
  has_arxiv_id e = false -> entry_to_paper e = None.
Proof.
  intros H. destruct (entry_to_paper e) eqn:He; [| reflexivity].
  assert (Ht : has_arxiv_id e = true) by (apply entry_to_paper_some; eauto).
  congruence.
Qed.

Lemma papers_of_entries_length (es : list (option ArxivEntry)) :
  List.length (papers_of_entries (Some es)) = List.length (filter has_arxiv_id es).
Proof.
  induction es as [| e es IH]; [reflexivity |].
  cbn [papers_of_entries flat_map filter] in *.
  rewrite length_app, IH.
  destruct (has_arxiv_id e) eqn:Hh.
  - apply entry_to_paper_some in Hh as [p Hp]. rewrite Hp. reflexivity.
  - rewrite (entry_to_paper_none e Hh). reflexivity.
Qed.

(** Entries for the example below: one with an [/abs/<id>] URL, one whose
    [id] is not an abstract URL. *)
Definition entry_with_id (u : string) : option ArxivEntry :=
  Some {| entry_id := Some u; entry_updated := None; entry_published := None;
          entry_title := Some "T"; entry_summary := Some "S"; entry_author := None;
          entry_link := None; entry_category := None |}.

Definition full_upstream_page : list (option ArxivEntry) :=
  map (fun d => entry_with_id ("http://arxiv.org/abs/2401.0000" ++ d ++ "v1"))
      ["1"; "2"; "3"; "4"; "5"; "6"; "7"; "8"; "9"] ++
  [entry_with_id "http://arxiv.org/pdf/2401.00010v1"].

Lemma find_in_some (l : list Page.Request) (r : Page.Request) :
  In r l -> exists q, find (fun q => Nat.eqb (Page.req_no q) (Page.req_no r)) l = Some q.
Proof.
  induction l as [| a l IH]; cbn; [contradiction |].
  intros [-> | Hin].
  - rewrite Nat.eqb_refl. eauto.
  - destruct (Nat.eqb (Page.req_no a) (Page.req_no r)); eauto.
Qed.

(** C10: every entry whose [id] yields no arXiv identifier is dropped
    (the others are kept, so the page has exactly as many papers as
    entries with an identifier); a full upstream page of 10 entries can
    thus give the client 9 papers, and the page's completion of any
    pending fetch with them sets [hasMorePapers] to [false]. *)
Theorem entries_without_id_dropped :
  (forall e, has_arxiv_id e = false -> entry_to_paper e = None) /\
  (forall es, List.length (papers_of_entries (Some es)) = List.length (filter has_arxiv_id es)) /\
  (exists es, List.length es = MAX_RESULTS /\
              List.length (papers_of_entries (Some es)) = 9 /\
              forall (s : Page.State) (r : Page.Request), In r (Page.inflight s) ->
                Page.hasMorePapers
                  (Page.complete (Page.req_no r)
                     (Page.FOk (map Page.paper_of_summary (papers_of_entries (Some es)))) s) = false).
Proof.
  split; [exact entry_to_paper_none |].
  split; [exact papers_of_entries_length |].
  exists full_upstream_page. split; [reflexivity |]. split; [reflexivity |].
  intros s r Hin. destruct (find_in_some _ _ Hin) as [q Hq].
  unfold Page.complete. rewrite Hq. reflexivity.
Qed.

End RouteProps.

Module SummarizeProps.
Import Summarize.

(** A request body whose [pdfUrl] is the empty string. *)
Definition empty_link_body : Body := BodyOk (JsString "") (JsString "Title").

(** C9 fails as stated: with [GEMINI_API_KEY] unset, the route answers
    500 (configuration error) before it looks at [pdfUrl], not 400. *)
Lemma summarize_empty_link_counterexample :
  POST None empty_link_body = Resp 500 "サーバー設定エラー: APIキーが設定されていません。".
Proof. reflexivity. Qed.

(** C9 (as amended): the page never posts a request for an empty PDF
    link; the route, given a body whose [pdfUrl] is empty, missing or not
    a string, never goes on to the download and generation steps: it
    answers 400 with the message asking for the PDF URL when the API key
    is configured, and 500 with the configuration message otherwise. *)
Theorem summarize_empty_link (isSumm : option string) (ps : list Paper)
    (paperId paperTitle : string) (key : option string) (pdfUrl title : JsVal)
    (Hfalsy : truthy pdfUrl = false \/ (forall u, pdfUrl <> JsString u)) :
  generateAiSummary isSumm ps paperId "" paperTitle = None /\
  POST key (BodyOk pdfUrl title) =
    (if match key with Some k => negb (String.eqb k "") | None => false end
     then Resp 400 "要約する論文のPDF URLが必要です。"
     else Resp 500 "サーバー設定エラー: APIキーが設定されていません。").
Proof.
  split.
  - unfold generateAiSummary. rewrite orb_true_r. reflexivity.
  - unfold POST.
    destruct (match key with Some k => negb (String.eqb k "") | None => false end); [| reflexivity].
    cbn. destruct pdfUrl as [u | | | | |]; try reflexivity.
    destruct Hfalsy as [H | H].
    + cbn in H. destruct (String.eqb u ""); [reflexivity | discriminate].
    + exfalso. exact (H u eq_refl).
Qed.

Lemma summarize_empty_link_witness :
  (truthy (JsString "") = false \/ (forall u, JsString "" <> JsString u)) /\
  POST (Some "key") (BodyOk (JsString "") (JsString "Title")) =
    Resp 400 "要約する論文のPDF URLが必要です。".
Proof.
  split; [left; reflexivity |].
  exact (proj2 (summarize_empty_link None [] "p" "Title" (Some "key") (JsString "") (JsString "Title")
                  (or_introl eq_refl))).
Defined.

End SummarizeProps.

Module AppendProps.
Import Page.

(** A paper with the given identifier, used by the runs below. *)
Definition mk_paper (i : string) : Paper :=
  {| id := i; title := i; summary := ""; authors := []; published := ""; updated := "";
     pdfLink := ""; categories := []; aiSummary := None; isEndOfFeedCard := false;
     endOfFeedMessage := None |}.

(** A feed entry with an [id] URL and a title, nothing else. *)
Definition feed_entry (u t : string) : PapersRoute.ArxivEntry :=
  {| PapersRoute.entry_id := Some u; PapersRoute.entry_updated := None;
     PapersRoute.entry_published := None; PapersRoute.entry_title := Some t;
     PapersRoute.entry_summary := None; PapersRoute.entry_author := None;
     PapersRoute.entry_link := None; PapersRoute.entry_category := None |}.

(** Two different papers of the old [solv-int] archive: the identifier
    pattern [/abs/([^v]+)] stops at the [v] of [solv], so both get the
    identifier [sol]. *)
Definition solv_int_feed : option (list (option PapersRoute.ArxivEntry)) :=
  Some [Some (feed_entry "http://arxiv.org/abs/solv-int/9901001v1" "First");
        Some (feed_entry "http://arxiv.org/abs/solv-int/9902002v1" "Second")].

(** The page the client receives for that feed. *)
Definition solv_int_page : list Paper :=
  map paper_of_summary (PapersRoute.papers_of_entries solv_int_feed).

(** C3 (failing run): the merge of [fetchPapers] only drops papers whose
    identifier is already in the Result Set, not repeats inside the page
    itself.  A page holding two entries with the same identifier, as the
    route returns for two [solv-int] papers, appended to a Result Set of
    one paper gives the identifier [sol] twice; the Result Set then holds
    three real papers although the page brought one new identifier.  A
    new search whose first page is that page keeps both as well. *)
Theorem append_page_duplicates :
  let res := merge_page false "" solv_int_page [mk_paper "2401.00001"] in
  map id solv_int_page = ["sol"; "sol"] /\
  map id res = ["2401.00001"; "sol"; "sol"; END_OF_FEED_CARD_ID_PAGE] /\
  ~ NoDup (map id res) /\
  List.length (filter is_real res) = 3 /\
  ~ NoDup (map id (merge_page true "" solv_int_page [mk_paper "2401.00001"])).
Proof.
  cbv zeta.
  assert (Hpage : map id solv_int_page = ["sol"; "sol"]) by (vm_compute; reflexivity).
  assert (Hres : map id (merge_page false "" solv_int_page [mk_paper "2401.00001"]) =
                 ["2401.00001"; "sol"; "sol"; END_OF_FEED_CARD_ID_PAGE])
    by (vm_compute; reflexivity).
  assert (Hnew : map id (merge_page true "" solv_int_page [mk_paper "2401.00001"]) =
                 ["sol"; "sol"; END_OF_FEED_CARD_ID_PAGE])
    by (vm_compute; reflexivity).
  split; [exact Hpage |]. split; [exact Hres |].
  split; [| split; [vm_compute; reflexivity |]].
  - rewrite Hres. intros H. inversion H as [| x xs _ Hnd]; subst.
    inversion Hnd as [| y ys Hn _]; subst. apply Hn. left. reflexivity.
  - rewrite Hnew. intros H. inversion H as [| x xs Hn _]; subst.
    apply Hn. left. reflexivity.
Qed.

End AppendProps.

Module FlowProps.
Import Page.

Definition paper_ids (prefix : string) (n : nat) : list Paper :=
  map (fun k => AppendProps.mk_paper (prefix ++ string_of_nat k)) (seq 0 n).

(** [n] dislike-button presses on the top card, each followed by its
    600 ms timer. *)
Definition dislike_and_advance (n : nat) : list Event :=
  concat (repeat [EvClickDislike 0; EvAdvanceTimer] n).

(** The default feed loaded with two papers (then the end-of-feed card). *)
Definition two_papers_loaded : State :=
  run (init [] 300)
    [EvSearch ""; EvResponse 0 (FOk [AppendProps.mk_paper "a"; AppendProps.mk_paper "b"]);
     EvCanFetchTimer].

(** The like button of the top card pressed four times within the 600 ms
    of the fly-out. *)
Definition four_presses : State :=
  run two_papers_loaded [EvClickLike 0; EvClickLike 0; EvClickLike 0; EvClickLike 0].

Definition is_search (e : Event) : bool :=
  match e with EvSearch _ => true | _ => false end.

Definition frozen (s : State) : list Request * bool * list Request :=
  (inflight s, hasMorePapers s, fetchLog s).

Ltac split_cases :=
  repeat match goal with
         | |- context [match ?x with _ => _ end] => destruct x
         | |- context [if ?x then _ else _] => destruct x
         end.

Lemma reset_frozen (s : State) : frozen (resetCardInteraction s) = frozen s.
Proof. reflexivity. Qed.

Lemma goToNextPaper_frozen (n : nat) (s : State) : frozen (goToNextPaper n s) = frozen s.
Proof. reflexivity. Qed.

Lemma handleLike_frozen (p : Paper) (s : State) : frozen (handleLike p s) = frozen s.
Proof. reflexivity. Qed.

Lemma handleDislike_frozen (s : State) : frozen (handleDislike s) = frozen s.
Proof. reflexivity. Qed.

Lemma step_frozen (s : State) (e : Event) :
  is_search e = false -> e <> EvLoadMoreEffect -> (forall rid res, e <> EvResponse rid res) ->
  frozen (step s e) = frozen s.
Proof.
  intros Hs Hl Hr. destruct e; cbn [step].
  - discriminate Hs.
  - contradiction Hl; reflexivity.
  - contradiction (Hr rid res); reflexivity.
  - unfold fireCanFetchTimer. split_cases; reflexivity.
  - unfold handleTouchStart. split_cases; reflexivity.
  - unfold handleTouchMove. cbv zeta. split_cases; reflexivity.
  - unfold handleTouchEnd. cbv zeta. split_cases; try reflexivity.
  - unfold clickLike. split_cases; reflexivity.
  - unfold clickDislike. split_cases; reflexivity.
  - unfold fireAdvanceTimer. split_cases; reflexivity.
Qed.

(** With nothing in flight and [hasMorePapers] false, no event other than a
    search issues a request or sets [hasMorePapers]. *)
Lemma step_exhausted (s : State) (e : Event) :
  inflight s = [] -> hasMorePapers s = false -> is_search e = false ->
  inflight (step s e) = [] /\ hasMorePapers (step s e) = false /\
  fetchLog (step s e) = fetchLog s.
Proof.
  intros Hi Hh Hs.
  destruct (is_search e) eqn:Hse; [discriminate Hs |].
  assert (Hgen : e = EvLoadMoreEffect \/ (exists rid res, e = EvResponse rid res) \/
                 frozen (step s e) = frozen s).
  { destruct e; try (right; right; apply step_frozen; [reflexivity | discriminate | discriminate]).
    - discriminate Hse.
    - left; reflexivity.
    - right; left; eauto. }
  destruct Hgen as [-> | [[rid [res ->]] | Hf]].
  - cbn [step]. unfold loadMoreEffect. cbv zeta. rewrite Hh, andb_false_r. cbn [andb].
    auto.
  - cbn [step]. unfold complete. rewrite Hi. cbn [find]. auto.
  - unfold frozen in Hf. injection Hf as H1 H2 H3. rewrite H1, H2, H3. auto.
Qed.

Lemma run_exhausted (es : list Event) (s : State) :
  inflight s = [] -> hasMorePapers s = false -> forallb (fun e => negb (is_search e)) es = true ->
  inflight (run s es) = [] /\ hasMorePapers (run s es) = false /\
  fetchLog (run s es) = fetchLog s.
Proof.
  unfold run. revert s. induction es as [| e es IH]; cbn [fold_left forallb]; intros s Hi Hh Hes.
  - auto.
  - apply andb_prop in Hes as [He Hes]. apply negb_true_iff in He.
    destruct (step_exhausted s e Hi Hh He) as [Hi' [Hh' Hl']].
    destruct (IH (step s e) Hi' Hh' Hes) as [Hi'' [Hh'' Hl'']].
    rewrite Hl'' , Hl'. auto.
Qed.

(** The state of the race below when the short page of ["x"] arrives:
    the default feed's more-fetch (request 1) was issued before the search
    ["x"] and is still in flight. *)
Definition race_before_short : State :=
  run (init [] 300)
    ([EvSearch ""; EvResponse 0 (FOk (paper_ids "A" 10)); EvCanFetchTimer] ++
     dislike_and_advance 8 ++
     [EvLoadMoreEffect; EvSearch "x"; EvResponse 2 (FOk (paper_ids "X" 10)); EvCanFetchTimer] ++
     dislike_and_advance 8 ++ [EvLoadMoreEffect])%list.

Definition race_after_short : State :=
  run race_before_short [EvResponse 3 (FOk (paper_ids "Y" 4))].

(** The events after the short page: the stale full page of request 1
    arrives, the user swipes on, and the load-more effect runs. *)
Definition race_continuation : list Event :=
  ([EvResponse 1 (FOk (paper_ids "B" 10)); EvCanFetchTimer] ++
   dislike_and_advance 14 ++ [EvLoadMoreEffect])%list.

(** The one-request state used by the witness of the amended C4. *)
Definition single_more_inflight : State :=
  run (init [] 300)
    ([EvSearch ""; EvResponse 0 (FOk (paper_ids "A" 10)); EvCanFetchTimer] ++
     dislike_and_advance 8 ++ [EvLoadMoreEffect])%list.

Definition single_more_request : Request :=
  {| req_no := 1; req_initial := false; req_term := ""; req_offset := 10;
     req_closure_term := "" |}.

(** C2 (failing run): the like button stays active during the 600 ms
    fly-out, so each press is another commit; with two papers loaded, four
    presses before the timers fire store the paper once but schedule four
    [goToNextPaper] calls, which move the Read Cursor 0, 1, 2, 3, 3: the
    second press skips the second paper and the fourth commit does not
    move the cursor at all (clamped to the length 3 of the Result Set). *)
Theorem button_presses_during_flyout :
  map id (papers two_papers_loaded) = ["a"; "b"; END_OF_FEED_CARD_ID_PAGE] /\
  currentPaperIndex two_papers_loaded = 0 /\
  List.length (advanceTimers four_presses) = 4 /\
  map id (likedPapers four_presses) = ["a"] /\
  map (fun k => currentPaperIndex (run four_presses (repeat EvAdvanceTimer k))) [0; 1; 2; 3; 4]
    = [0; 1; 2; 3; 3].
Proof. vm_compute. repeat split. Qed.

(** C4 fails as stated: after the short page of request 3 (query ["x"])
    sets [hasMorePapers] to false, the stale full page of request 1
    (issued for the previous query before the search) sets it back to
    true and removes the end-of-feed card; the load-more effect then
    issues request 4, another more-fetch for ["x"], with no search in
    between. *)
Lemma exhausted_counterexample :
  hasMorePapers race_after_short = false /\
  map req_no (inflight race_after_short) = [1] /\
  forallb (fun e => negb (is_search e)) race_continuation = true /\
  map (fun r => (req_no r, req_initial r, req_term r, req_offset r))
      (fetchLog (run race_after_short race_continuation))
  = (map (fun r => (req_no r, req_initial r, req_term r, req_offset r))
         (fetchLog race_after_short) ++ [(4, false, "x", 24)])%list.
Proof. vm_compute. repeat split. Qed.

(** C4 (as amended): when the completion of the only request in flight
    returns a page of fewer than 10 papers, [hasMorePapers] becomes false,
    and from then on no event other than a new search issues any fetch or
    sets [hasMorePapers] back to true. *)
Theorem exhausted_until_new_search (s : State) (r : Request) (data : list Paper)
    (es : list Event)
    (Honly : inflight s = [r])
    (Hshort : List.length data < MAX_RESULTS_PER_FETCH_PAGE)
    (Hnosearch : forallb (fun e => negb (is_search e)) es = true) :
  let s1 := complete (req_no r) (FOk data) s in
  hasMorePapers s1 = false /\
  fetchLog (run s1 es) = fetchLog s1 /\
  hasMorePapers (run s1 es) = false.
Proof.
  cbv zeta.
  assert (Hc : inflight (complete (req_no r) (FOk data) s) = [] /\
               hasMorePapers (complete (req_no r) (FOk data) s) = false).
  { unfold complete. rewrite Honly. cbn [find]. rewrite Nat.eqb_refl. cbn.
    rewrite Nat.eqb_refl. split; [reflexivity |].
    apply Nat.eqb_neq. unfold MAX_RESULTS_PER_FETCH_PAGE in *. lia. }
  destruct Hc as [Hi Hh].
  destruct (run_exhausted es _ Hi Hh Hnosearch) as [_ [Hh' Hl']].
  auto.
Qed.

Lemma exhausted_until_new_search_witness :
  fetchLog (run (complete 1 (FOk (paper_ids "C" 4)) single_more_inflight) race_continuation)
  = fetchLog (complete 1 (FOk (paper_ids "C" 4)) single_more_inflight).
Proof.
  refine (proj1 (proj2 (exhausted_until_new_search single_more_inflight single_more_request
            (paper_ids "C" 4) race_continuation _ _ _))).
  - vm_compute. reflexivity.
  - vm_compute. lia.
  - vm_compute. reflexivity.
Defined.

End FlowProps.

Module GestureRuns.
Import Page.

(** A drag of the top card 80 px to the right, 10 px down. *)
Definition dragged_right : State :=
  run FlowProps.two_papers_loaded [EvTouchStart 0 0; EvTouchMove 80 10].

(** A touch on the top card, not yet moved. *)
Definition touched : State :=
  run FlowProps.two_papers_loaded [EvTouchStart 0 0].

Lemma release_commit_threshold_witness :
  flyingDirection (interactionState (handleTouchEnd dragged_right)) = Some Right.
Proof.
  refine (proj2 (proj1 (GestureProps.release_commit_threshold dragged_right 0 80
            (AppendProps.mk_paper "a") _ _ _ _ _)) _).
  - vm_compute. reflexivity.
  - vm_compute. reflexivity.
  - vm_compute. reflexivity.
  - vm_compute. reflexivity.
  - vm_compute. reflexivity.
  - lia.
Defined.

Lemma vertical_scroll_never_commits_witness :
  interactionState (handleTouchMove 5 40 touched) = neutral.
Proof.
  refine (proj1 (GestureProps.vertical_scroll_never_commits touched 0 0 5 40 [(100, 40)%Z]
            _ _ _ _ _ _ _)).
  - vm_compute. reflexivity.
  - vm_compute. reflexivity.
  - vm_compute. reflexivity.
  - vm_compute. reflexivity.
  - vm_compute. reflexivity.
  - vm_compute. reflexivity.
  - vm_compute. reflexivity.
Defined.

End GestureRuns.

(* ================================================================== *)
(** * Further properties of the code *)

(** Facts about the string helpers. *)
Module StringFacts.

Lemma append_nil_r (s : string) : (s ++ "")%string = s.
Proof. induction s as [| c s IH]; cbn; [reflexivity | rewrite IH; reflexivity]. Qed.

Lemma append_assoc_str (x y z : string) : ((x ++ y) ++ z)%string = (x ++ (y ++ z))%string.
Proof. induction x as [| c x IH]; cbn; [reflexivity | rewrite IH; reflexivity]. Qed.

Lemma length_append_str (x y : string) :
  String.length (x ++ y) = String.length x + String.length y.
Proof. induction x as [| c x IH]; cbn; [reflexivity | rewrite IH; reflexivity]. Qed.

Lemma prefix_refl (s : string) : String.prefix s s = true.
Proof.
  induction s as [| c s IH]; cbn; [reflexivity |].
  destruct (ascii_dec c c) as [_ | n]; [exact IH | contradiction n; reflexivity].
Qed.

Lemma prefix_app_l (p x y : string) :
  String.prefix p x = true -> String.prefix p (x ++ y) = true.
Proof.
  revert x. induction p as [| a p IH]; intros x H; [destruct (x ++ y)%string; reflexivity |].
  destruct x as [| b x]; [discriminate H |]. cbn in *.
  destruct (ascii_dec a b); [apply IH, H | discriminate H].
Qed.

Lemma prefix_app_long (p x y : string) :
  String.length p <= String.length x -> String.prefix p (x ++ y) = String.prefix p x.
Proof.
  revert x. induction p as [| a p IH]; intros x H; [destruct (x ++ y)%string, x; reflexivity |].
  destruct x as [| b x]; [cbn in H; lia |]. cbn in *.
  destruct (ascii_dec a b); [apply IH; lia | reflexivity].
Qed.

Lemma prefix_app_same (p x y : string) :
  String.prefix (p ++ x) (p ++ y) = String.prefix x y.
Proof.
  induction p as [| a p IH]; cbn; [reflexivity |].
  destruct (ascii_dec a a) as [_ | n]; [exact IH | contradiction n; reflexivity].
Qed.

Lemma substring_0_full (s : string) : substring 0 (String.length s) s = s.
Proof. induction s as [| c s IH]; cbn; [reflexivity | rewrite IH; reflexivity]. Qed.

Lemma prefix_split (p s : string) :
  String.prefix p s = true -> exists r, s = (p ++ r)%string.
Proof.
  revert s. induction p as [| a p IH]; intros s H; [exists s; reflexivity |].
  destruct s as [| b s]; [discriminate H |]. cbn in H.
  destruct (ascii_dec a b) as [<- | n]; [| discriminate H].
  destruct (IH s H) as [r ->]. exists r. reflexivity.
Qed.

Lemma substring_0_ge (s : string) (m : nat) :
  String.length s <= m -> substring 0 m s = s.
Proof.
  revert m. induction s as [| c s IH]; intros m Hm; destruct m as [| m]; cbn in *;
    [reflexivity | reflexivity | lia | rewrite IH by lia; reflexivity].
Qed.

Lemma substring_after (p r : string) (m : nat) :
  String.length r <= m -> substring (String.length p) m (p ++ r) = r.
Proof.
  intros Hm. induction p as [| a p IH]; cbn; [apply substring_0_ge, Hm | exact IH].
Qed.

Lemma includes_app_l (x y t : string) : includes y t = true -> includes (x ++ y) t = true.
Proof.
  induction x as [| c x IH]; cbn [append includes]; intros H; [exact H |].
  destruct (String.prefix t (String c (x ++ y))); [reflexivity | apply IH, H].
Qed.

Lemma includes_middle (x t y : string) : includes (x ++ t ++ y) t = true.
Proof.
  apply includes_app_l. destruct t as [| c t]; [destruct y; reflexivity |].
  assert (H := prefix_app_l (String c t) (String c t) y (prefix_refl _)).
  cbn [append] in H. cbn [append includes]. rewrite H. reflexivity.
Qed.

(** ** White space characters *)

Local Open Scope list_scope.

Lemma is_ws_byte (a : ascii) : is_ws a = true -> nat_of_ascii a <= 32.
Proof.
  unfold is_ws. cbv zeta. intros H.
  repeat rewrite ?orb_true_iff, ?andb_true_iff, ?Nat.eqb_eq, ?Nat.leb_le in H. lia.
Qed.

Lemma is_ws2_bytes (a b : ascii) :
  is_ws2 a b = true -> nat_of_ascii a = 194 /\ nat_of_ascii b = 160.
Proof.
  unfold is_ws2. intros H. rewrite andb_true_iff, !Nat.eqb_eq in H. exact H.
Qed.

Lemma is_ws3_bytes (a b c : ascii) :
  is_ws3 a b c = true ->
  225 <= nat_of_ascii a /\ 128 <= nat_of_ascii b <= 191 /\ 128 <= nat_of_ascii c <= 191.
Proof.
  unfold is_ws3. cbv zeta. intros H.
  repeat rewrite ?orb_true_iff, ?andb_true_iff, ?Nat.eqb_eq, ?Nat.leb_le in H. lia.
Qed.

(** A byte that starts a character (below 128 or from 192 on) is never the
    second or third byte of a white space sequence. *)
Lemma not_continuation (x a b : ascii) :
  nat_of_ascii x < 128 \/ 192 <= nat_of_ascii x ->
  is_ws2 a x = false /\ is_ws3 a x b = false /\ is_ws3 a b x = false.
Proof.
  intros Hx. split; [| split].
  - destruct (is_ws2 a x) eqn:E; [apply is_ws2_bytes in E; lia | reflexivity].
  - destruct (is_ws3 a x b) eqn:E; [apply is_ws3_bytes in E; lia | reflexivity].
  - destruct (is_ws3 a b x) eqn:E; [apply is_ws3_bytes in E; lia | reflexivity].
Qed.

Lemma ws_not_lead2 (a b c : ascii) : is_ws a = true -> is_ws2 a b = false /\ is_ws3 a b c = false.
Proof.
  intros H. apply is_ws_byte in H. split.
  - destruct (is_ws2 a b) eqn:E; [apply is_ws2_bytes in E; lia | reflexivity].
  - destruct (is_ws3 a b c) eqn:E; [apply is_ws3_bytes in E; lia | reflexivity].
Qed.

Lemma ws2_not_ws3 (a b c : ascii) : is_ws2 a b = true -> is_ws3 a b c = false.
Proof.
  intros H. apply is_ws2_bytes in H.
  destruct (is_ws3 a b c) eqn:E; [apply is_ws3_bytes in E; lia | reflexivity].
Qed.

(** ** Well-formed token lists *)

Definition tok_valid (t : Tok) : bool :=
  match t with
  | Ch a => negb (is_ws a)
  | Ws1 a => is_ws a
  | Ws2 a b => is_ws2 a b
  | Ws3 a b c => is_ws3 a b c
  end.

Definition lead (t : Tok) : ascii :=
  match t with Ch a | Ws1 a | Ws2 a _ | Ws3 a _ _ => a end.

(** A byte [a] kept as a character must not start a white space sequence
    with the single-byte characters that follow it. *)
Definition ch_follow (a : ascii) (r : list Tok) : bool :=
  match r with
  | Ch b :: Ch c :: _ => negb (is_ws2 a b) && negb (is_ws3 a b c)
  | Ch b :: _ => negb (is_ws2 a b)
  | _ => true
  end.

Definition follow_ok (t : Tok) (r : list Tok) : bool :=
  match t with Ch a => ch_follow a r | _ => true end.

Fixpoint good (l : list Tok) : bool :=
  match l with
  | [] => true
  | t :: r => tok_valid t && follow_ok t r && good r
  end.

Lemma ws_lead (t : Tok) :
  tok_valid t = true -> is_ws_tok t = true ->
  nat_of_ascii (lead t) < 128 \/ 192 <= nat_of_ascii (lead t).
Proof.
  destruct t as [a | a | a b | a b c]; cbn; intros Hv Hw; [discriminate Hw | | |].
  - apply is_ws_byte in Hv. lia.
  - apply is_ws2_bytes in Hv. lia.
  - apply is_ws3_bytes in Hv. lia.
Qed.

(** The bytes that follow a token, as far as the tokenizer looks ahead. *)
Definition la_ok (t : Tok) (z : string) : bool :=
  match t with
  | Ch a =>
      match z with
      | String b (String c _) => negb (is_ws2 a b) && negb (is_ws3 a b c)
      | String b EmptyString => negb (is_ws2 a b)
      | EmptyString => true
      end
  | _ => true
  end.

Lemma tokens_step (t : Tok) (z : string) :
  tok_valid t = true -> la_ok t z = true -> tokens (tok_str t ++ z)%string = t :: tokens z.
Proof.
  intros Hv Hl.
  destruct t as [a | a | a b | a b c]; cbn in Hv |- *.
  - apply negb_true_iff in Hv.
    assert (Ho : one_tok a = Ch a) by (unfold one_tok; rewrite Hv; reflexivity).
    destruct z as [| b [| c r]]; cbn in Hl.
    + rewrite Ho. reflexivity.
    + apply negb_true_iff in Hl. rewrite Hl, Ho. reflexivity.
    + apply andb_true_iff in Hl as [H2 H3]. apply negb_true_iff in H2, H3.
      rewrite H3, H2, Ho. reflexivity.
  - assert (Ho : one_tok a = Ws1 a) by (unfold one_tok; rewrite Hv; reflexivity).
    destruct z as [| b [| c r]].
    + rewrite Ho. reflexivity.
    + destruct (ws_not_lead2 a b b Hv) as [H2 _]. rewrite H2, Ho. reflexivity.
    + destruct (ws_not_lead2 a b c Hv) as [H2 H3]. rewrite H3, H2, Ho. reflexivity.
  - destruct z as [| c r].
    + rewrite Hv. reflexivity.
    + rewrite (ws2_not_ws3 a b c Hv), Hv. reflexivity.
  - rewrite Hv. reflexivity.
Qed.

Lemma la_ok_of_good (t : Tok) (r : list Tok) :
  good (t :: r) = true -> la_ok t (untokens r) = true.
Proof.
  destruct t as [a | a | a b | a b c]; cbn [good]; intros H; try reflexivity.
  apply andb_true_iff in H as [H Hr]. apply andb_true_iff in H as [_ Hf].
  cbn [follow_ok] in Hf.
  destruct r as [| t1 r1]; [reflexivity |].
  cbn [good] in Hr. apply andb_true_iff in Hr as [Hr Hr1]. apply andb_true_iff in Hr as [Hv1 _].
  destruct t1 as [b | x | x y | x y z].
  - (* a byte [b] follows *)
    destruct r1 as [| t2 r2].
    + exact Hf.
    + cbn [good] in Hr1. apply andb_true_iff in Hr1 as [Hr1 _].
      apply andb_true_iff in Hr1 as [Hv2 _].
      destruct t2 as [c | x | x y | x y z]; cbn [ch_follow] in Hf; cbn [untokens tok_str append la_ok];
        try exact Hf;
        (apply andb_true_iff; split; [apply negb_true_iff in Hf; rewrite Hf; reflexivity |]);
        (destruct (ws_lead _ Hv2 eq_refl) as [Hx | Hx]; cbn [lead] in Hx;
         destruct (not_continuation x a b (or_introl Hx)) as (_ & _ & E) ||
         destruct (not_continuation x a b (or_intror Hx)) as (_ & _ & E);
         rewrite E; reflexivity).
  - destruct (ws_lead (Ws1 x) Hv1 eq_refl) as [Hx | Hx]; cbn [lead] in Hx;
      [destruct (not_continuation x a x (or_introl Hx)) as (H2 & H3 & _)
      |destruct (not_continuation x a x (or_intror Hx)) as (H2 & H3 & _)];
      cbn [untokens tok_str append la_ok];
      destruct (untokens r1) as [| c w];
      [rewrite H2; reflexivity | | rewrite H2; reflexivity |];
      (destruct (not_continuation x a c ltac:(lia)) as (H2' & H3' & _);
       rewrite H2', H3'; reflexivity).
  - destruct (ws_lead (Ws2 x y) Hv1 eq_refl) as [Hx | Hx]; cbn [lead] in Hx;
      destruct (not_continuation x a y ltac:(lia)) as (H2 & H3 & _);
      cbn [untokens tok_str append la_ok]; rewrite H2, H3; reflexivity.
  - destruct (ws_lead (Ws3 x y z) Hv1 eq_refl) as [Hx | Hx]; cbn [lead] in Hx;
      destruct (not_continuation x a y ltac:(lia)) as (H2 & H3 & _);
      cbn [untokens tok_str append la_ok]; rewrite H2, H3; reflexivity.
Qed.

(** A well-formed token list reads back as itself. *)
Lemma good_canon (l : list Tok) : good l = true -> tokens (untokens l) = l.
Proof.
  induction l as [| t r IH]; intros H; [reflexivity |].
  assert (Hl := la_ok_of_good t r H).
  cbn [good] in H. apply andb_true_iff in H as [H Hr]. apply andb_true_iff in H as [Hv _].
  cbn [untokens]. rewrite tokens_step by assumption. rewrite IH by exact Hr. reflexivity.
Qed.

Lemma tokens_ch (s : string) (b : ascii) (l : list Tok) :
  tokens s = Ch b :: l -> exists z, s = String b z /\ l = tokens z.
Proof.
  destruct s as [| a [| x [| y r]]]; cbn; unfold one_tok; intros H.
  - discriminate H.
  - destruct (is_ws a); [discriminate H | injection H as -> <-].
    exists ""%string; split; reflexivity.
  - destruct (is_ws2 a x); [discriminate H |].
    destruct (is_ws a); [discriminate H | injection H as -> <-]. eexists; split; reflexivity.
  - destruct (is_ws3 a x y); [discriminate H |].
    destruct (is_ws2 a x); [discriminate H |].
    destruct (is_ws a); [discriminate H | injection H as -> <-]. eexists; split; reflexivity.
Qed.

Lemma one_tok_valid (a : ascii) : tok_valid (one_tok a) = true.
Proof. unfold one_tok. destruct (is_ws a) eqn:E; cbn; rewrite E; reflexivity. Qed.

Lemma follow_one_tok (a : ascii) (z : string) (r : list Tok) :
  tokens z = r ->
  match z with
  | String b (String c _) => is_ws2 a b = false /\ is_ws3 a b c = false
  | String b EmptyString => is_ws2 a b = false
  | EmptyString => True
  end ->
  follow_ok (one_tok a) r = true.
Proof.
  intros Hz Hla. unfold one_tok. destruct (is_ws a); [reflexivity |]. cbn [follow_ok].
  destruct r as [| t1 r1]; [reflexivity |].
  destruct t1 as [b | | |]; try reflexivity.
  destruct (tokens_ch z b r1 Hz) as [z1 [-> Hz1]].
  destruct r1 as [| t2 r2]; cbn [ch_follow].
  - destruct z1 as [| c w]; [rewrite Hla; reflexivity | destruct Hla as [-> _]; reflexivity].
  - destruct t2 as [c | | |];
      [destruct (tokens_ch z1 c r2 (eq_sym Hz1)) as [z2 [-> _]];
       destruct Hla as [-> ->]; reflexivity
      |destruct z1 as [| c0 w]; [rewrite Hla | destruct Hla as [-> _]]; reflexivity ..].
Qed.

Lemma tokens_two (a b : ascii) :
  tokens (String a (String b "")) =
  if is_ws2 a b then [Ws2 a b] else one_tok a :: tokens (String b "").
Proof. reflexivity. Qed.

Lemma tokens_three (a b c : ascii) (r : string) :
  tokens (String a (String b (String c r))) =
  if is_ws3 a b c then Ws3 a b c :: tokens r
  else if is_ws2 a b then Ws2 a b :: tokens (String c r)
  else one_tok a :: tokens (String b (String c r)).
Proof. reflexivity. Qed.

(** What the tokenizer produces is well formed. *)
Lemma good_tokens (s : string) : good (tokens s) = true.
Proof.
  remember (String.length s) as n eqn:Hn.
  revert s Hn. induction n as [n IH] using lt_wf_ind. intros s Hn.
  destruct s as [| a [| b [| c r]]].
  - reflexivity.
  - cbn. rewrite one_tok_valid. unfold one_tok. destruct (is_ws a); reflexivity.
  - rewrite tokens_two. destruct (is_ws2 a b) eqn:E2; [cbn; rewrite E2; reflexivity |].
    cbn [good]. rewrite one_tok_valid.
    rewrite (follow_one_tok a (String b "") (tokens (String b "")) eq_refl E2).
    rewrite (IH 1) by (cbn in Hn; subst; auto). reflexivity.
  - rewrite tokens_three. cbn in Hn.
    destruct (is_ws3 a b c) eqn:E3.
    + cbn [good tok_valid follow_ok]. rewrite E3, (IH (String.length r)) by (subst; auto).
      reflexivity.
    + destruct (is_ws2 a b) eqn:E2.
      * cbn [good tok_valid follow_ok].
        rewrite E2, (IH (String.length (String c r))) by (cbn; subst; auto).
        reflexivity.
      * cbn [good]. rewrite one_tok_valid.
        rewrite (follow_one_tok a (String b (String c r)) _ eq_refl (conj E2 E3)).
        rewrite (IH (String.length (String b (String c r)))) by (cbn; subst; auto).
        reflexivity.
Qed.

Lemma tokens_untokens_tokens (s : string) : tokens (untokens (tokens s)) = tokens s.
Proof. apply good_canon, good_tokens. Qed.

Lemma follow_ok_app (t : Tok) (l l2 : list Tok) :
  follow_ok t (l ++ l2) = true -> follow_ok t l = true.
Proof.
  destruct t as [a | | |]; try reflexivity. cbn [follow_ok].
  destruct l as [| t1 l]; [reflexivity |].
  destruct t1 as [b | | |]; try reflexivity.
  destruct l as [| t2 l].
  - cbn [app ch_follow]. destruct l2 as [| [c | | |] l2]; try exact (fun H => H).
    intros H. apply andb_true_iff in H as [H _]. exact H.
  - exact (fun H => H).
Qed.

Lemma good_app_l (l1 l2 : list Tok) : good (l1 ++ l2) = true -> good l1 = true.
Proof.
  induction l1 as [| t l1 IH]; intros H; [reflexivity |].
  cbn [app good] in H |- *. apply andb_true_iff in H as [H Hr]. apply andb_true_iff in H as [Hv Hf].
  rewrite Hv, (follow_ok_app t l1 l2 Hf), (IH Hr). reflexivity.
Qed.

Lemma good_app_r (l1 l2 : list Tok) : good (l1 ++ l2) = true -> good l2 = true.
Proof.
  induction l1 as [| t l1 IH]; intros H; [exact H |].
  cbn [app good] in H. apply andb_true_iff in H as [_ Hr]. apply IH, Hr.
Qed.

(** ** [trim] *)

Lemma drop_ws_suffix (l : list Tok) : exists p, l = p ++ drop_ws l.
Proof.
  induction l as [| t l [p Hp]]; [exists []; reflexivity |]. cbn.
  destruct (is_ws_tok t); [exists (t :: p); rewrite Hp at 1; reflexivity | exists []; reflexivity].
Qed.

Lemma drop_ws_rev_prefix (l : list Tok) : exists q, l = rev (drop_ws (rev l)) ++ q.
Proof.
  destruct (drop_ws_suffix (rev l)) as [p Hp]. exists (rev p).
  rewrite <- rev_app_distr, <- Hp, rev_involutive. reflexivity.
Qed.

Definition starts_ws (l : list Tok) : bool :=
  match l with t :: _ => is_ws_tok t | [] => false end.

Definition ends_ws (l : list Tok) : bool := starts_ws (rev l).

Fixpoint no_double_ws (l : list Tok) : bool :=
  match l with
  | t1 :: ((t2 :: _) as r) => negb (is_ws_tok t1 && is_ws_tok t2) && no_double_ws r
  | _ => true
  end.

Lemma drop_ws_starts (l : list Tok) : starts_ws (drop_ws l) = false.
Proof.
  induction l as [| t l IH]; [reflexivity |]. cbn.
  destruct (is_ws_tok t) eqn:E; [exact IH | exact E].
Qed.

Lemma drop_ws_id (l : list Tok) : starts_ws l = false -> drop_ws l = l.
Proof. destruct l as [| t l]; cbn; [reflexivity | intros H; rewrite H; reflexivity]. Qed.

Lemma starts_ws_app (l q : list Tok) : starts_ws (l ++ q) = false -> l <> [] -> starts_ws l = false.
Proof. destruct l; [intros _ H; contradiction H; reflexivity | exact (fun H _ => H)]. Qed.

Lemma trimmed_ends (l : list Tok) :
  let m := rev (drop_ws (rev (drop_ws l))) in
  starts_ws m = false /\ ends_ws m = false.
Proof.
  cbv zeta. split.
  - destruct (drop_ws_rev_prefix (drop_ws l)) as [q Hq].
    destruct (rev (drop_ws (rev (drop_ws l)))) as [| t m] eqn:E; [reflexivity |].
    apply (starts_ws_app (t :: m) q); [rewrite <- Hq; apply drop_ws_starts | discriminate].
  - unfold ends_ws. rewrite rev_involutive. apply drop_ws_starts.
Qed.

(** The token list of [trim s]: [tokens s] without its white space at
    either end. *)
Lemma tokens_trim (s : string) :
  tokens (trim s) = rev (drop_ws (rev (drop_ws (tokens s)))).
Proof.
  unfold trim. apply good_canon.
  destruct (drop_ws_suffix (tokens s)) as [p Hp].
  destruct (drop_ws_rev_prefix (drop_ws (tokens s))) as [q Hq].
  apply (good_app_l _ q). rewrite <- Hq. apply (good_app_r p). rewrite <- Hp. apply good_tokens.
Qed.

Lemma trim_idempotent (s : string) : trim (trim s) = trim s.
Proof.
  unfold trim at 1. rewrite tokens_trim.
  destruct (trimmed_ends (tokens s)) as [Hs He].
  set (m := rev (drop_ws (rev (drop_ws (tokens s))))) in *.
  rewrite (drop_ws_id m Hs).
  rewrite (drop_ws_id (rev m) He), rev_involutive. reflexivity.
Qed.

(** ** [collapse_ws] *)

Lemma flush_ws_shape (run : list Tok) :
  forallb is_ws_tok run = true -> forallb tok_valid run = true ->
  flush_ws run = [] \/ exists w, flush_ws run = [w] /\ is_ws_tok w = true /\ tok_valid w = true.
Proof.
  destruct run as [| a [| b r]]; cbn; intros Hw Hv.
  - left; reflexivity.
  - right. exists a. rewrite andb_true_r in Hw, Hv. auto.
  - right. exists (Ws1 " "). auto.
Qed.

Lemma collapse_head_ws (l run : list Tok) :
  run <> [] -> forallb is_ws_tok run = true ->
  exists w rest, collapse_toks run l = w :: rest /\ is_ws_tok w = true.
Proof.
  revert run. induction l as [| t l IH]; intros run Hne Hw; cbn [collapse_toks].
  - destruct run as [| a [| b r]]; [contradiction Hne; reflexivity | |].
    + exists a, []. cbn in Hw. rewrite andb_true_r in Hw. auto.
    + exists (Ws1 " "), []. auto.
  - destruct (is_ws_tok t) eqn:Et.
    + apply IH; [destruct run; discriminate | rewrite forallb_app, Hw; cbn; rewrite Et; reflexivity].
    + destruct run as [| a [| b r]]; [contradiction Hne; reflexivity | |].
      * exists a, (t :: collapse_toks [] l). cbn in Hw. rewrite andb_true_r in Hw. auto.
      * exists (Ws1 " "), (t :: collapse_toks [] l). auto.
Qed.

(** Case on the first token of [collapse_toks run l] for a non-empty white
    space [run]. *)
Ltac head_ws :=
  match goal with
  | |- context [collapse_toks ?run ?l] =>
      let w := fresh "w" in let rest := fresh "rest" in let Hw := fresh "Hw" in
      destruct (collapse_head_ws l run ltac:(discriminate) eq_refl) as [w [rest [-> Hw]]];
      destruct w; [discriminate Hw | ..]
  end.

Lemma collapse_follow (a : ascii) (l : list Tok) :
  ch_follow a l = true -> ch_follow a (collapse_toks [] l) = true.
Proof.
  destruct l as [| t1 l1]; [reflexivity |]. cbn [collapse_toks].
  destruct t1 as [b | x | x y | x y z]; cbn [is_ws_tok];
    [| intros _; head_ws; reflexivity ..].
  cbn [flush_ws app].
  destruct l1 as [| t2 l2]; [exact (fun H => H) |]. cbn [collapse_toks].
  destruct t2 as [c | x | x y | x y z]; cbn [is_ws_tok];
    [cbn [flush_ws app]; exact (fun H => H) | ..];
    intros H; cbn [ch_follow] in H; head_ws; exact H.
Qed.

Lemma good_collapse (l run : list Tok) :
  good l = true -> forallb is_ws_tok run = true -> forallb tok_valid run = true ->
  good (collapse_toks run l) = true.
Proof.
  revert run. induction l as [| t l IH]; intros run Hg Hw Hv; cbn [collapse_toks].
  - destruct (flush_ws_shape run Hw Hv) as [-> | [w [-> [Hw' Hv']]]]; [reflexivity |].
    cbn. rewrite Hv'. destruct w; [discriminate Hw' | reflexivity ..].
  - cbn [good] in Hg. apply andb_true_iff in Hg as [Hg Hl]. apply andb_true_iff in Hg as [Ht Hf].
    destruct (is_ws_tok t) eqn:Et.
    + apply IH; [exact Hl | rewrite forallb_app, Hw; cbn; rewrite Et; reflexivity
                          | rewrite forallb_app, Hv; cbn; rewrite Ht; reflexivity].
    + assert (Hrest : good (t :: collapse_toks [] l) = true).
      { cbn [good]. rewrite Ht, (IH [] Hl eq_refl eq_refl).
        destruct t as [a | | |]; [| discriminate Et ..].
        cbn [follow_ok] in Hf |- *. rewrite (collapse_follow a l Hf). reflexivity. }
      destruct (flush_ws_shape run Hw Hv) as [-> | [w [-> [Hw' Hv']]]]; [exact Hrest |].
      cbn [app].
      change (good (w :: t :: collapse_toks [] l)) with
        (tok_valid w && follow_ok w (t :: collapse_toks [] l) && good (t :: collapse_toks [] l)).
      rewrite Hv', Hrest. destruct w; [discriminate Hw' | reflexivity ..].
Qed.

Lemma collapse_starts (l : list Tok) :
  starts_ws l = false -> starts_ws (collapse_toks [] l) = false.
Proof.
  destruct l as [| t l]; [reflexivity |]. cbn. intros H. rewrite H. exact H.
Qed.

Lemma ends_ws_cons (t : Tok) (l : list Tok) :
  ends_ws (t :: l) = match l with [] => is_ws_tok t | _ => ends_ws l end.
Proof.
  unfold ends_ws. cbn [rev]. destruct l as [| u l]; [reflexivity |].
  destruct (rev (u :: l)) as [| v m] eqn:E; [apply (f_equal (@length Tok)) in E; cbn in E;
    rewrite length_app in E; cbn in E; lia | reflexivity].
Qed.

Lemma ends_ws_app (x y : list Tok) : y <> [] -> ends_ws (x ++ y) = ends_ws y.
Proof.
  intros Hy. unfold ends_ws. rewrite rev_app_distr.
  destruct (rev y) as [| v m] eqn:E; [| reflexivity].
  apply (f_equal (@rev Tok)) in E. rewrite rev_involutive in E. contradiction.
Qed.

Lemma collapse_ends (l run : list Tok) :
  l <> [] -> ends_ws l = false -> ends_ws (collapse_toks run l) = false.
Proof.
  revert run. induction l as [| t l IH]; intros run Hne He; [contradiction Hne; reflexivity |].
  rewrite ends_ws_cons in He. cbn [collapse_toks].
  destruct l as [| u l].
  - rewrite He. cbn [collapse_toks flush_ws]. rewrite ends_ws_app by discriminate.
    exact He.
  - destruct (is_ws_tok t) eqn:Et; [apply IH; [discriminate | exact He] |].
    rewrite ends_ws_app by discriminate. rewrite ends_ws_cons.
    specialize (IH [] ltac:(discriminate) He).
    destruct (collapse_toks [] (u :: l)); [exact Et | exact IH].
Qed.

Lemma no_double_cons2 (x y : Tok) (r : list Tok) :
  no_double_ws (x :: y :: r) = negb (is_ws_tok x && is_ws_tok y) && no_double_ws (y :: r).
Proof. reflexivity. Qed.

Lemma collapse_no_double (l run : list Tok) : no_double_ws (collapse_toks run l) = true.
Proof.
  revert run. induction l as [| t l IH]; intros run; cbn [collapse_toks].
  - destruct run as [| a [| b r]]; reflexivity.
  - destruct (is_ws_tok t) eqn:Et; [apply IH |].
    assert (Hc : no_double_ws (t :: collapse_toks [] l) = true).
    { specialize (IH []). destruct (collapse_toks [] l) as [| u r]; [reflexivity |].
      cbn [no_double_ws]. rewrite Et. exact IH. }
    destruct run as [| a [| b r]]; cbn [flush_ws app]; [exact Hc | |];
      rewrite no_double_cons2, Hc, Et, andb_false_r; reflexivity.
Qed.

(** [s.trim().replace(/\s\s+/g, ' ')], read back as characters, has no
    white space at either end and no two white space characters in a row. *)
Lemma normalized_text (t : string) :
  let l := tokens (collapse_ws (trim t)) in
  starts_ws l = false /\ ends_ws l = false /\ no_double_ws l = true.
Proof.
  cbv zeta. unfold collapse_ws.
  assert (Hg : good (tokens (trim t)) = true) by (rewrite <- tokens_untokens_tokens; apply good_tokens).
  rewrite good_canon by (apply good_collapse; [exact Hg | reflexivity | reflexivity]).
  rewrite tokens_trim in Hg |- *.
  destruct (trimmed_ends (tokens t)) as [Hs He].
  set (m := rev (drop_ws (rev (drop_ws (tokens t))))) in *.
  split; [apply collapse_starts, Hs |]. split; [| apply collapse_no_double].
  destruct m as [| u m]; [reflexivity |].
  apply collapse_ends; [discriminate | exact He].
Qed.

End StringFacts.

Module RouteFacts.
Import PapersRoute StringFacts.

Definition no_v (s : string) : bool :=
  forallb (fun c => negb (Ascii.eqb c "v"%char)) (list_ascii_of_string s).

(** Read as characters: no white space at either end and no two white
    space characters in a row. *)
Definition normalized (s : string) : bool :=
  let l := tokens s in
  negb (starts_ws l) && negb (ends_ws l) && no_double_ws l.

Lemma take_non_v_prefix (x : string) : exists r, x = (take_non_v x ++ r)%string.
Proof.
  induction x as [| c x [r Hr]]; [exists ""%string; reflexivity |]. cbn.
  destruct (Ascii.eqb c "v"%char); [exists (String c x); reflexivity |].
  exists r. cbn. rewrite <- Hr. reflexivity.
Qed.

Lemma take_non_v_no_v (x : string) : no_v (take_non_v x) = true.
Proof.
  induction x as [| c x IH]; [reflexivity |]. cbn.
  destruct (Ascii.eqb c "v"%char) eqn:E; [reflexivity |]. cbn. rewrite E. exact IH.
Qed.

Lemma abs_match_spec (u cap : string) :
  abs_match u = Some cap ->
  cap <> ""%string /\ no_v cap = true /\ includes u ("/abs/" ++ cap) = true.
Proof.
  induction u as [| c r IH]; [discriminate |]. cbn [abs_match].
  destruct (String.prefix "/abs/" (String c r)) eqn:Hp.
  - destruct (take_non_v (substring 5 (String.length (String c r)) (String c r))) as [| a t] eqn:Ht.
    + intros H. destruct (IH H) as (H1 & H2 & H3). split; [exact H1 | split; [exact H2 |]].
      apply (includes_app_l (String c "") r), H3.
    + intros H. injection H as <-.
      apply prefix_split in Hp as [x Hx]. rewrite Hx in Ht |- *.
      assert (Hs : substring 5 (String.length ("/abs/" ++ x)) ("/abs/" ++ x) = x).
      { apply (substring_after "/abs/" x). rewrite length_append_str. lia. }
      rewrite Hs in Ht. split; [discriminate | split; [rewrite <- Ht; apply take_non_v_no_v |]].
      destruct (take_non_v_prefix x) as [y Hy]. rewrite Hy, Ht.
      rewrite <- append_assoc_str. apply (includes_middle "" ("/abs/" ++ String a t) y).
  - intros H. destruct (IH H) as (H1 & H2 & H3). split; [exact H1 | split; [exact H2 |]].
    apply (includes_app_l (String c "") r), H3.
Qed.

Lemma in_papers_of_entries (es : list (option ArxivEntry)) (p : PaperSummary) :
  In p (papers_of_entries (Some es)) -> exists e, In e es /\ entry_to_paper e = Some p.
Proof.
  cbn [papers_of_entries]. intros H. apply in_flat_map in H as [e [He Hp]].
  destruct (entry_to_paper e) as [q |] eqn:E; [| destruct Hp].
  destruct Hp as [<- | []]. exists e. split; assumption.
Qed.

Lemma entry_to_paper_fields (e : option ArxivEntry) (p : PaperSummary) :
  entry_to_paper e = Some p ->
  exists ei u, e = Some ei /\ entry_id ei = Some u /\ abs_match u = Some (ps_id p) /\
    ps_title p = match entry_title ei with Some t => collapse_ws (trim t) | None => "タイトルなし" end /\
    ps_summary p = match entry_summary ei with Some t => collapse_ws (trim t) | None => "要約なし" end /\
    ps_authors p = authors_of (entry_author ei) /\
    ps_categories p = categories_of (entry_category ei) /\
    ps_pdfLink p = pdf_link_of (Some u) (entry_link ei).
Proof.
  destruct e as [ei |]; [| discriminate]. cbn [entry_to_paper].
  destruct (entry_id ei) as [u |] eqn:Hu; [| discriminate].
  destruct (abs_match u) as [cap |] eqn:Hm; [| discriminate].
  intros H. injection H as <-. exists ei, u. repeat split; assumption.
Qed.

Lemma replace_first_eq (s t u : string) :
  replace_first s t u =
  if String.prefix t s then (u ++ substring (String.length t) (String.length s) s)%string
  else match s with
       | EmptyString => EmptyString
       | String c r => String c (replace_first r t u)
       end.
Proof. destruct s; reflexivity. Qed.

Lemma includes_eq (s t : string) :
  includes s t =
  if String.prefix t s then true
  else match s with EmptyString => false | String _ r => includes r t end.
Proof. destruct s; reflexivity. Qed.

(** [idUrl.replace('/abs/', '/pdf/')] replaces the first [/abs/]. *)
Lemma replace_first_abs (pre rest u : string) :
  includes (pre ++ "/abs") "/abs/" = false ->
  replace_first (pre ++ "/abs/" ++ rest) "/abs/" u = (pre ++ u ++ rest)%string.
Proof.
  induction pre as [| c pre IH]; intros Hf.
  - change ((""%string ++ ?x)%string) with x. rewrite replace_first_eq.
    rewrite (prefix_app_l "/abs/" "/abs/" rest (prefix_refl _)).
    rewrite (substring_after "/abs/" rest); [reflexivity |].
    rewrite length_append_str. lia.
  - rewrite includes_eq in Hf.
    destruct (String.prefix "/abs/" (String c pre ++ "/abs")) eqn:Hp; [discriminate Hf |].
    cbn [append] in Hf.
    rewrite replace_first_eq.
    replace (String.prefix "/abs/" (String c pre ++ "/abs/" ++ rest)) with false.
    + cbn [append]. f_equal. apply IH, Hf.
    + assert (E : (String c pre ++ "/abs/" ++ rest)%string =
                  ((String c pre ++ "/abs") ++ ("/" ++ rest))%string)
        by (rewrite append_assoc_str; reflexivity).
      rewrite E, prefix_app_long; [symmetry; exact Hp |].
      rewrite length_append_str. cbn. lia.
Qed.

Lemma authors_trimmed (l : option (list (option ArxivAuthor))) :
  Forall (fun a => a <> ""%string /\ trim a = a) (authors_of l).
Proof.
  destruct l as [xs |]; [| constructor]. cbn [authors_of].
  apply Forall_forall. intros a Ha. apply filter_In in Ha as [Ha Hne].
  split; [intros E; subst a; discriminate Hne |].
  apply in_flat_map in Ha as [x [_ Hx]].
  destruct x as [x |]; [| destruct Hx].
  destruct (author_name x) as [n |]; [| destruct Hx].
  destruct Hx as [<- | []]. apply trim_idempotent.
Qed.

Lemma categories_nonempty (l : option (list (option ArxivCategoryAttribute))) :
  Forall (fun c => c <> ""%string) (categories_of l).
Proof.
  destruct l as [xs |]; [| constructor]. cbn [categories_of].
  apply Forall_forall. intros a Ha. apply filter_In in Ha as [_ Hne].
  intros E; subst a; discriminate Hne.
Qed.

Lemma normalized_of (t : string) : normalized (collapse_ws (trim t)) = true.
Proof.
  destruct (normalized_text t) as (H1 & H2 & H3). unfold normalized. cbv zeta.
  rewrite H1, H2, H3. reflexivity.
Qed.

End RouteFacts.

Module RouteProps2.
Import PapersRoute StringFacts RouteFacts.

(** X1: Every paper the route returns has a non-empty identifier without the
    letter [v] (the version suffix is cut off), and comes from an entry
    of the feed (converted into exactly that paper) whose [id] URL
    contains [/abs/] followed by that identifier. *)
Theorem returned_ids_wellformed (es : list (option ArxivEntry)) :
  Forall (fun p => ps_id p <> ""%string /\ no_v (ps_id p) = true /\
            exists ei u, In (Some ei) es /\ entry_to_paper (Some ei) = Some p /\
                         entry_id ei = Some u /\
                         includes u ("/abs/" ++ ps_id p) = true)
         (papers_of_entries (Some es)).
Proof.
  apply Forall_forall. intros p Hp.
  destruct (in_papers_of_entries es p Hp) as [e [He Hep]].
  destruct (entry_to_paper_fields e p Hep) as (ei & u & -> & Hu & Hm & _).
  destruct (abs_match_spec u (ps_id p) Hm) as (H1 & H2 & H3).
  split; [exact H1 | split; [exact H2 |]]. exists ei, u. auto.
Qed.

(** X2: Every title and summary the route returns has no white space at
    either end and no two white space characters in a row (the
    placeholders for a missing title or summary included). *)
Theorem returned_text_normalized (es : list (option ArxivEntry)) :
  Forall (fun p => normalized (ps_title p) = true /\ normalized (ps_summary p) = true)
         (papers_of_entries (Some es)).
Proof.
  apply Forall_forall. intros p Hp.
  destruct (in_papers_of_entries es p Hp) as [e [_ Hep]].
  destruct (entry_to_paper_fields e p Hep) as (ei & u & _ & _ & _ & Ht & Hs & _).
  rewrite Ht, Hs.
  split; [destruct (entry_title ei) | destruct (entry_summary ei)];
    solve [apply normalized_of | vm_compute; reflexivity].
Qed.

(** X3: Every author name returned is non-empty and already trimmed, and
    every category term returned is non-empty. *)
Theorem returned_authors_categories (es : list (option ArxivEntry)) :
  Forall (fun p => Forall (fun a => a <> ""%string /\ trim a = a) (ps_authors p) /\
                   Forall (fun c => c <> ""%string) (ps_categories p))
         (papers_of_entries (Some es)).
Proof.
  apply Forall_forall. intros p Hp.
  destruct (in_papers_of_entries es p Hp) as [e [_ Hep]].
  destruct (entry_to_paper_fields e p Hep) as (ei & u & _ & _ & _ & _ & _ & Ha & Hc & _).
  rewrite Ha, Hc. split; [apply authors_trimmed | apply categories_nonempty].
Qed.

(** X4: When no link titled [pdf] with a string [href] is present, an entry
    whose [id] is [pre/abs/rest] (with [pre] an [http://] or [https://]
    URL before the first [/abs/]) gets the link [pre/pdf/rest.pdf]. *)
Theorem pdf_link_fallback (pre rest : string)
    (links : option (list (option ArxivLinkAttribute)))
    (Hnone : match links with Some ls => find_pdf_link ls | None => ""%string end = ""%string)
    (Hhttp : String.prefix "http://" pre = true \/ String.prefix "https://" pre = true)
    (Hfirst : includes (pre ++ "/abs") "/abs/" = false) :
  pdf_link_of (Some (pre ++ "/abs/" ++ rest)) links = (pre ++ "/pdf/" ++ rest ++ ".pdf")%string.
Proof.
  unfold pdf_link_of. cbv zeta. rewrite Hnone. cbn [String.eqb].
  rewrite includes_middle, replace_first_abs by exact Hfirst.
  rewrite !append_assoc_str.
  destruct Hhttp as [H | H].
  - rewrite (prefix_app_l "http://" pre _ H). reflexivity.
  - rewrite (prefix_app_l "https://" pre _ H), orb_true_r. reflexivity.
Qed.

Lemma pdf_link_fallback_witness :
  pdf_link_of (Some "http://arxiv.org/abs/2401.00001v1") None =
  "http://arxiv.org/pdf/2401.00001v1.pdf".
Proof.
  exact (pdf_link_fallback "http://arxiv.org" "2401.00001v1" None eq_refl
           (or_introl eq_refl) eq_refl).
Defined.

End RouteProps2.

Module LikedStoreProps.
Import LikedStore.

Lemma existsb_removed (ps : list Paper) (pid : string) :
  existsb (fun p => String.eqb (id p) pid) (removeLikedPaper ps pid) = false.
Proof.
  induction ps as [| p ps IH]; [reflexivity |]. unfold removeLikedPaper in *. cbn.
  destruct (String.eqb (id p) pid) eqn:E; cbn; [exact IH | rewrite E; exact IH].
Qed.

Lemma existsb_removed_other (ps : list Paper) (pid other : string) :
  other <> pid ->
  existsb (fun p => String.eqb (id p) other) (removeLikedPaper ps pid) =
  existsb (fun p => String.eqb (id p) other) ps.
Proof.
  intros Hne. induction ps as [| p ps IH]; [reflexivity |]. unfold removeLikedPaper in *. cbn.
  destruct (String.eqb (id p) pid) eqn:E; cbn.
  - apply String.eqb_eq in E. rewrite IH.
    destruct (String.eqb (id p) other) eqn:E2; [| reflexivity].
    apply String.eqb_eq in E2. congruence.
  - rewrite IH. reflexivity.
Qed.

Lemma filter_id_absent (ps : list Paper) (pid : string) :
  existsb (fun p => String.eqb (id p) pid) ps = false -> removeLikedPaper ps pid = ps.
Proof.
  unfold removeLikedPaper. induction ps as [| p ps IH]; [reflexivity |]. cbn.
  intros H. apply orb_false_iff in H as [H1 H2]. rewrite H1. cbn. f_equal. apply IH, H2.
Qed.

Lemma find_none_existsb (ps : list Paper) (pid : string) :
  find (fun p => String.eqb (id p) pid) ps = None <->
  existsb (fun p => String.eqb (id p) pid) ps = false.
Proof.
  induction ps as [| p ps IH]; [split; reflexivity |]. cbn.
  destruct (String.eqb (id p) pid); [split; discriminate | exact IH].
Qed.

(** X5: After [removeLikedPaper(id)] the paper is no longer liked, the liked
    status of every other id is unchanged, and removing again changes
    nothing. *)
Theorem remove_liked_paper_spec (loading : bool) (ps : list Paper) (pid other : string) :
  isPaperLiked loading (removeLikedPaper ps pid) pid = false /\
  (other <> pid ->
   isPaperLiked loading (removeLikedPaper ps pid) other = isPaperLiked loading ps other) /\
  removeLikedPaper (removeLikedPaper ps pid) pid = removeLikedPaper ps pid.
Proof.
  unfold isPaperLiked. split; [| split].
  - destruct loading; [reflexivity | apply existsb_removed].
  - intros Hne. destruct loading; [reflexivity | apply existsb_removed_other, Hne].
  - apply filter_id_absent, existsb_removed.
Qed.

(** X6: Once the saved list is read, a paper is liked right after
    [addLikedPaper]; if it was not liked before, [removeLikedPaper] of its
    id gives back the list as it was.  While the saved list is still being
    read, [isPaperLiked] answers [false] for every id. *)
Theorem add_then_remove_liked (ps : list Paper) (p : Paper) (pid : string) :
  isPaperLiked false (Liked.addLikedPaper ps p) (id p) = true /\
  (isPaperLiked false ps (id p) = false ->
   removeLikedPaper (Liked.addLikedPaper ps p) (id p) = ps) /\
  isPaperLiked true ps pid = false.
Proof.
  unfold isPaperLiked, Liked.addLikedPaper. split; [| split; [| reflexivity]].
  - destruct (find (fun q => String.eqb (id q) (id p)) ps) eqn:E.
    + apply existsb_exists. apply find_some in E as [Hin Heq]. exists p0. split; assumption.
    + rewrite existsb_app. cbn. rewrite String.eqb_refl. apply orb_true_r.
  - intros H. apply find_none_existsb in H as H'. rewrite H'.
    unfold removeLikedPaper. rewrite filter_app. cbn. rewrite String.eqb_refl. cbn.
    rewrite app_nil_r. apply filter_id_absent, H.
Qed.

(** X7: [updateLikedPaperSummary(id, text)] keeps the ids and their order,
    gives every paper with that id the summary [text], and changes nothing
    when no paper has that id. *)
Theorem update_liked_summary_spec (ps : list Paper) (pid t : string) :
  map id (updateLikedPaperSummary ps pid t) = map id ps /\
  Forall (fun p => String.eqb (id p) pid = true -> aiSummary p = Some t)
         (updateLikedPaperSummary ps pid t) /\
  (isPaperLiked false ps pid = false -> updateLikedPaperSummary ps pid t = ps).
Proof.
  unfold updateLikedPaperSummary, isPaperLiked. split; [| split].
  - rewrite map_map. apply map_ext. intros p. destruct (String.eqb (id p) pid); reflexivity.
  - apply Forall_forall. intros q Hq. apply in_map_iff in Hq as [p [<- _]].
    destruct (String.eqb (id p) pid) eqn:E; [reflexivity |]. rewrite E. discriminate.
  - induction ps as [| p ps IH]; [reflexivity |]. cbn. intros H.
    apply orb_false_iff in H as [H1 H2]. rewrite H1. f_equal. apply IH, H2.
Qed.

End LikedStoreProps.

Module PageProps.
Import Page PageView PapersRoute StringFacts.

Definition sample_paper (i : string) : Paper :=
  {| id := i; title := "t"; summary := "s"; authors := []; published := "";
     updated := ""; pdfLink := "http://arxiv.org/pdf/x.pdf"; categories := [];
     aiSummary := None; isEndOfFeedCard := false; endOfFeedMessage := None |}.

(** The default feed showing [a] after the like button was pressed: the
    [goToNextPaper] timer (captured length 3, the end-of-feed card
    included) is still pending. *)
Definition liked_pending : State :=
  run (init [] 300)
    [EvSearch ""; EvResponse 0 (FOk [sample_paper "a"; sample_paper "b"]);
     EvCanFetchTimer; EvClickLike 0].

Lemma string_of_nat_not_empty (n : nat) : string_of_nat n <> ""%string.
Proof.
  unfold string_of_nat. destruct (Nat.to_uint n) eqn:E; try discriminate.
  pose proof (DecimalNat.Unsigned.of_to n) as H. rewrite E in H. cbn in H. subst n.
  cbv in E. discriminate E.
Qed.

Lemma fetchPapers_initial (b : bool) (t : string) (o : nat) (s : State) :
  b = true ->
  fetchPapers b t o s =
  set_nextReq (S (nextReq s))
    (set_fetchLog (fetchLog s ++ [{| req_no := nextReq s; req_initial := true; req_term := trim t;
                                     req_offset := o; req_closure_term := currentSearchTerm s |}])%list
      (set_inflight (inflight s ++ [{| req_no := nextReq s; req_initial := true; req_term := trim t;
                                       req_offset := o; req_closure_term := currentSearchTerm s |}])%list
        (set_interactionState neutral
          (set_hasMorePapers true (set_currentPaperIndex 0 (set_papers []
            (set_canFetchMoreRef false (set_isLoading true s)))))))).
Proof. intros ->. reflexivity. Qed.

Lemma find_snoc_none {A} (f : A -> bool) (l : list A) (x : A) :
  find f l = None -> f x = true -> find f (l ++ [x])%list = Some x.
Proof.
  intros H Hx. induction l as [| a l IH]; cbn in *; [rewrite Hx; reflexivity |].
  destruct (f a); [discriminate | apply IH, H].
Qed.

Lemma upstream_of_term (t : string) (o : nat) (r : Request) :
  req_term r = trim t -> req_offset r = o ->
  GET_upstream (request_params r) =
  {| search_query := if String.eqb (trim t) "" then DEFAULT_CATEGORY else trim t;
     sortBy := if String.eqb (trim t) "" then "submittedDate" else "relevance";
     sortOrder := "descending"; start := or_default (Some (string_of_nat o)) "0";
     max_results := "10" |}.
Proof.
  intros Ht <-. unfold GET_upstream, request_params. rewrite Ht.
  destruct (String.eqb (trim t) "") eqn:E; cbn [app get String.eqb Ascii.eqb Bool.eqb andb].
  - reflexivity.
  - unfold query_and_sort. rewrite trim_idempotent, E. reflexivity.
Qed.

Lemma start_of_request (r : Request) :
  start (GET_upstream (request_params r)) = string_of_nat (req_offset r).
Proof.
  unfold GET_upstream, request_params.
  destruct (String.eqb (req_term r) ""); cbn [app get String.eqb Ascii.eqb Bool.eqb andb];
    destruct (query_and_sort _); cbn [start]; unfold or_default;
    (destruct (String.eqb (string_of_nat (req_offset r)) "") eqn:E; [| reflexivity]);
    apply String.eqb_eq in E; exfalso; exact (string_of_nat_not_empty _ E).
Qed.

(** X8: [handleSearchSubmit(q)] always issues a new first-page request, even
    while a fetch is running: the papers are cleared, the index is reset,
    more papers are expected, the term becomes [q.trim()], and the arXiv
    query sent is that term by relevance (the default category by
    submission date when it is blank), from offset 0, 10 results. *)
Theorem search_submit_request (q : string) (s : State) :
  let s' := handleSearchSubmit q s in
  let r := {| req_no := nextReq s; req_initial := true; req_term := trim q; req_offset := 0;
              req_closure_term := currentSearchTerm s |} in
  fetchLog s' = (fetchLog s ++ [r])%list /\ inflight s' = (inflight s ++ [r])%list /\
  papers s' = [] /\ currentPaperIndex s' = 0 /\ hasMorePapers s' = true /\
  isLoading s' = true /\ currentSearchTerm s' = trim q /\
  GET_upstream (request_params r) =
  {| search_query := if String.eqb (trim q) "" then DEFAULT_CATEGORY else trim q;
     sortBy := if String.eqb (trim q) "" then "submittedDate" else "relevance";
     sortOrder := "descending"; start := "0"; max_results := "10" |}.
Proof.
  intros s' r. unfold s', handleSearchSubmit.
  rewrite fetchPapers_initial by reflexivity. rewrite trim_idempotent.
  repeat split. apply (upstream_of_term q 0 r); reflexivity.
Qed.

(** X9: The load-more effect either does nothing, or (when no fetch is
    running, more papers are expected, the next fetch is allowed, no
    end-of-feed card is present and the index has reached the threshold)
    asks for the next page of the current term at the offset equal to the
    number of real papers loaded, keeping the papers and the index. *)
Theorem load_more_request (s : State) :
  loadMoreEffect s = s \/
  (let n := List.length (filter is_real (papers s)) in
   let r := {| req_no := nextReq s; req_initial := false; req_term := trim (currentSearchTerm s);
               req_offset := n; req_closure_term := currentSearchTerm s |} in
   0 < n /\
   (if Nat.ltb VISIBLE_CARDS_IN_STACK_PAGE n then n - VISIBLE_CARDS_IN_STACK_PAGE else n - 1)
     <= currentPaperIndex s /\
   isLoading s = false /\ hasMorePapers s = true /\ canFetchMoreRef s = true /\
   existsb is_end_id (papers s) = false /\
   fetchLog (loadMoreEffect s) = (fetchLog s ++ [r])%list /\
   isLoading (loadMoreEffect s) = true /\ canFetchMoreRef (loadMoreEffect s) = false /\
   papers (loadMoreEffect s) = papers s /\
   currentPaperIndex (loadMoreEffect s) = currentPaperIndex s /\
   start (GET_upstream (request_params r)) = string_of_nat n).
Proof.
  cbv zeta. rewrite start_of_request. cbn [req_offset].
  unfold loadMoreEffect.
  destruct (Nat.ltb 0 (List.length (filter is_real (papers s)))) eqn:H0; [| left; reflexivity].
  set (n := List.length (filter is_real (papers s))) in *.
  destruct (Nat.leb (if Nat.ltb VISIBLE_CARDS_IN_STACK_PAGE n then n - VISIBLE_CARDS_IN_STACK_PAGE
                     else n - 1) (currentPaperIndex s)) eqn:H1;
    [| left; reflexivity].
  destruct (isLoading s) eqn:H2; [left; reflexivity |].
  destruct (hasMorePapers s) eqn:H3; [| left; reflexivity].
  destruct (existsb is_end_id (papers s)) eqn:H4; [left; reflexivity |].
  destruct (canFetchMoreRef s) eqn:H5; [| left; reflexivity].
  right. cbn [andb negb]. unfold fetchPapers. rewrite H2, H3, H5. cbn.
  apply Nat.ltb_lt in H0. apply Nat.leb_le in H1.
  repeat split; try assumption; try reflexivity.
Qed.

(** X10: On mount, with no papers and an empty term, the page asks for the
    newest papers of the default category ([cat:cs.AI] by submission
    date, offset 0, 10 results); otherwise the mount effect does nothing. *)
Theorem mount_effect_request (s : State) :
  (List.length (papers s) = 0 -> currentSearchTerm s = ""%string ->
   let r := {| req_no := nextReq s; req_initial := true; req_term := ""; req_offset := 0;
               req_closure_term := "" |} in
   fetchLog (mountEffect s) = (fetchLog s ++ [r])%list /\
   isLoading (mountEffect s) = true /\
   GET_upstream (request_params r) =
   {| search_query := "cat:cs.AI"; sortBy := "submittedDate"; sortOrder := "descending";
      start := "0"; max_results := "10" |}) /\
  (List.length (papers s) <> 0 \/ currentSearchTerm s <> ""%string -> mountEffect s = s).
Proof.
  unfold mountEffect. split.
  - intros Hl Ht. rewrite Hl, Ht. cbn [Nat.eqb String.eqb andb].
    rewrite fetchPapers_initial by reflexivity. rewrite Ht. repeat split.
  - intros [H | H].
    + apply Nat.eqb_neq in H. rewrite H. reflexivity.
    + apply String.eqb_neq in H. rewrite H, andb_false_r. reflexivity.
Qed.

Lemma complete_found (rid : nat) (r : Request) (res : FetchResult) (s : State) :
  find (fun q => Nat.eqb (req_no q) rid) (inflight s) = Some r ->
  complete rid res s =
  (let s0 := set_inflight (filter (fun q => negb (Nat.eqb (req_no q) rid)) (inflight s)) s in
   let s1 :=
     match res with
     | FOk data =>
         set_hasMorePapers (Nat.eqb (List.length data) MAX_RESULTS_PER_FETCH_PAGE)
           (set_papers (merge_page (req_initial r) (req_closure_term r) data (papers s0)) s0)
     | FErr =>
         let s' := set_hasMorePapers false s0 in
         if req_initial r then set_papers [] s' else s'
     end in
   set_canFetchTimers (S (canFetchTimers s1)) (set_isLoading false s1)).
Proof. intros H. unfold complete. rewrite H. reflexivity. Qed.

(** X11: When a first-page request fails or returns no paper, the page shows
    the empty box with the reload button; pressing it issues a new
    first-page request for the trimmed current term from offset 0 and
    shows the loading box. *)
Theorem failed_search_offers_reload (rid : nat) (r : Request) (res : FetchResult) (s : State)
    (Hr : find (fun q => Nat.eqb (req_no q) rid) (inflight s) = Some r)
    (Hinit : req_initial r = true)
    (Hres : res = FErr \/ res = FOk []) :
  let s1 := complete rid res s in
  renderStatusDisplay s1 = StatusEmpty /\
  renderStatusDisplay (reloadClick s1) = StatusLoading /\
  fetchLog (reloadClick s1) =
    (fetchLog s1 ++ [{| req_no := nextReq s; req_initial := true;
                        req_term := trim (currentSearchTerm s); req_offset := 0;
                        req_closure_term := currentSearchTerm s |}])%list.
Proof.
  intros s1. unfold s1. rewrite (complete_found rid r res s Hr). rewrite Hinit.
  unfold reloadClick. rewrite fetchPapers_initial by reflexivity.
  destruct Hres as [-> | ->]; repeat split;
    unfold renderStatusDisplay, papersInStack; cbn -[skipn]; rewrite ?skipn_nil; reflexivity.
Qed.

Lemma failed_search_offers_reload_witness :
  renderStatusDisplay (complete 0 FErr (handleSearchSubmit "llm" (init [] 300))) = StatusEmpty /\
  renderStatusDisplay (reloadClick (complete 0 FErr (handleSearchSubmit "llm" (init [] 300))))
    = StatusLoading /\
  fetchLog (reloadClick (complete 0 FErr (handleSearchSubmit "llm" (init [] 300)))) =
    (fetchLog (complete 0 FErr (handleSearchSubmit "llm" (init [] 300))) ++
     [{| req_no := 1; req_initial := true; req_term := "llm"; req_offset := 0;
         req_closure_term := "llm" |}])%list.
Proof.
  exact (failed_search_offers_reload 0
           {| req_no := 0; req_initial := true; req_term := "llm"; req_offset := 0;
              req_closure_term := "" |}
           FErr (handleSearchSubmit "llm" (init [] 300)) eq_refl eq_refl (or_introl eq_refl)).
Defined.

Lemma skipn_firstn_two (s : State) (p0 p1 : Paper) (rest : list Paper) :
  skipn (currentPaperIndex s) (papers s) = p0 :: p1 :: rest -> papersInStack s = [p0; p1].
Proof. intros H. unfold papersInStack. rewrite H. reflexivity. Qed.

(** X12: At most two cards are rendered.  With two or more papers from the
    index on, the card at the index is drawn last with [indexInStack] 0 as
    the top card and the next one below it with [indexInStack] 1. *)
Theorem stack_two_cards (s : State) :
  List.length (rendered_cards s) <= 2 /\
  (forall p0 p1 rest, existsb is_real (papers s) = true ->
     skipn (currentPaperIndex s) (papers s) = p0 :: p1 :: rest ->
     rendered_cards s =
       [{| sc_paper := p1; indexInStack := 1; isTopCard := false |};
        {| sc_paper := p0; indexInStack := 0; isTopCard := true |}] /\
     touch_cards s = [{| sc_paper := p0; indexInStack := 0; isTopCard := true |}]).
Proof.
  split.
  - unfold rendered_cards. destruct (existsb is_real (papers s)); [| cbn; lia].
    unfold papersInStack.
    destruct (skipn (currentPaperIndex s) (papers s)) as [| a [| b l]]; cbn; lia.
  - intros p0 p1 rest Hr Hs. unfold touch_cards, rendered_cards.
    rewrite Hr, (skipn_firstn_two s p0 p1 rest Hs). split; reflexivity.
Qed.

(** X13: When only one paper is left from the index on, its card is drawn
    with [indexInStack] 1, so it is not the top card: no card of the stack
    gets the touch handlers (nor [topCardRef]). *)
Theorem last_card_not_top (s : State) (p0 : Paper) :
  (skipn (currentPaperIndex s) (papers s) = [p0] ->
   existsb is_real (papers s) = true ->
   rendered_cards s = [{| sc_paper := p0; indexInStack := 1; isTopCard := false |}]) /\
  (skipn (currentPaperIndex s) (papers s) = [p0] -> touch_cards s = []).
Proof.
  unfold touch_cards, rendered_cards, papersInStack. split.
  - intros Hs Hr. rewrite Hr, Hs. reflexivity.
  - intros Hs. rewrite Hs. destruct (existsb is_real (papers s)); reflexivity.
Qed.

Lemma search_then_response (q : string) (data : list Paper) (s : State) :
  find (fun r => Nat.eqb (req_no r) (nextReq s)) (inflight s) = None ->
  let s2 := complete (nextReq s) (FOk data) (handleSearchSubmit q s) in
  papers s2 = merge_page true (currentSearchTerm s) data [] /\
  currentPaperIndex s2 = 0 /\ currentSearchTerm s2 = trim q /\
  advanceTimers s2 = advanceTimers s.
Proof.
  intros Hf s2. unfold s2.
  set (r := {| req_no := nextReq s; req_initial := true; req_term := trim (trim q);
               req_offset := 0; req_closure_term := currentSearchTerm s |}).
  rewrite (complete_found (nextReq s) r).
  - repeat split.
  - unfold handleSearchSubmit. rewrite fetchPapers_initial by reflexivity. cbn [inflight set_currentSearchTerm set_nextReq set_fetchLog set_inflight].
    apply find_snoc_none; [exact Hf | apply Nat.eqb_refl].
Qed.

(** X14: A [goToNextPaper] timer still pending when a new search is submitted
    (a like or dislike less than 600 ms before) fires on the new results
    once they have arrived: the index becomes 1, so the first paper of the
    new results is never shown on top. *)
Theorem pending_advance_skips_first_result (q : string) (n : nat) (rest : list nat)
    (data : list Paper) (s : State)
    (Htimer : advanceTimers s = n :: rest) (Hn : 1 <= n)
    (Hfresh : find (fun r => Nat.eqb (req_no r) (nextReq s)) (inflight s) = None) :
  let s3 := run s [EvSearch q; EvResponse (nextReq s) (FOk data); EvAdvanceTimer] in
  currentPaperIndex s3 = 1 /\ exists tail, papers s3 = (data ++ tail)%list.
Proof.
  intros s3. unfold s3, run. cbn [fold_left step].
  destruct (search_then_response q data s Hfresh) as (Hp & Hi & _ & Ht).
  unfold fireAdvanceTimer. rewrite Ht, Htimer. unfold goToNextPaper. cbn.
  destruct n as [| m]; [lia |]. rewrite Hi. split; [reflexivity |].
  rewrite Hp. unfold merge_page. cbn [filter app].
  destruct (_ && _ && _); [eexists; reflexivity | exists []; symmetry; apply app_nil_r].
Qed.

Lemma pending_advance_skips_first_result_witness :
  let s3 := run liked_pending
              [EvSearch "llm"; EvResponse 1 (FOk [sample_paper "c"; sample_paper "d"]);
               EvAdvanceTimer] in
  currentPaperIndex s3 = 1 /\
  exists tail, papers s3 = ([sample_paper "c"; sample_paper "d"] ++ tail)%list.
Proof.
  apply (pending_advance_skips_first_result "llm" 3 [] _ liked_pending);
    vm_compute; [reflexivity | lia | reflexivity].
Defined.



Lemma find_storeAiSummary (ps : list Paper) (pid : string) (v : option string) :
  find (fun p => String.eqb (id p) pid) (storeAiSummary pid v ps) =
  option_map (fun p => LikedStore.with_aiSummary p v) (find (fun p => String.eqb (id p) pid) ps).
Proof.
  induction ps as [| p ps IH]; [reflexivity |]. cbn.
  destruct (String.eqb (id p) pid) eqn:E; cbn; rewrite E; [reflexivity | exact IH].
Qed.

(** X16: Once a non-empty summary has been stored for a paper of the list,
    [generateAiSummary] for that paper returns before sending a request.
    A response without [summary] stores [undefined], and the paper can be
    summarised again (when its PDF link is non-empty and no summary is
    running). *)
Theorem stored_summary_blocks_repeat (busy : option string) (ps : list Paper)
    (pid url ttl t : string)
    (Hin : existsb (fun p => String.eqb (id p) pid) ps = true)
    (Ht : t <> ""%string) :
  Summarize.generateAiSummary busy (storeAiSummary pid (Some t) ps) pid url ttl = None /\
  (url <> ""%string -> busy = None ->
   Summarize.generateAiSummary busy (storeAiSummary pid None ps) pid url ttl =
   Some (pid, (url, ttl))).
Proof.
  unfold Summarize.generateAiSummary. rewrite !find_storeAiSummary.
  destruct (find (fun p => String.eqb (id p) pid) ps) as [p |] eqn:Ef.
  - cbn. apply String.eqb_neq in Ht. rewrite Ht. split.
    + destruct (_ || _); reflexivity.
    + intros Hu ->. apply String.eqb_neq in Hu. rewrite Hu. reflexivity.
  - apply LikedStoreProps.find_none_existsb in Ef. congruence.
Qed.

Lemma stored_summary_blocks_repeat_witness :
  Summarize.generateAiSummary None (storeAiSummary "a" (Some "要約") [sample_paper "a"])
    "a" "http://arxiv.org/pdf/a.pdf" "t" = None /\
  ("http://arxiv.org/pdf/a.pdf" <> ""%string -> @None string = None ->
   Summarize.generateAiSummary None (storeAiSummary "a" None [sample_paper "a"])
     "a" "http://arxiv.org/pdf/a.pdf" "t" = Some ("a", ("http://arxiv.org/pdf/a.pdf", "t"))).
Proof.
  apply stored_summary_blocks_repeat; [reflexivity | discriminate].
Defined.

End PageProps.

Module PipelineProps.
Import SummarizePipeline StringFacts.

Definition all_safe (s : string) : bool := forallb is_safe_char (list_ascii_of_string s).

Lemma sanitize_app (x y : string) : sanitize (x ++ y) = (sanitize x ++ sanitize y)%string.
Proof. induction x as [| c x IH]; [reflexivity |]. cbn. rewrite IH. reflexivity. Qed.

Lemma sanitize_id (s : string) : all_safe s = true -> sanitize s = s.
Proof.
  unfold all_safe. induction s as [| c s IH]; [reflexivity |]. cbn.
  intros H. apply andb_true_iff in H as [H1 H2]. rewrite H1, IH by exact H2. reflexivity.
Qed.

Lemma sanitize_all_safe (s : string) : all_safe (sanitize s) = true.
Proof.
  unfold all_safe. induction s as [| c s IH]; [reflexivity |]. cbn.
  rewrite IH, andb_true_r. destruct (is_safe_char c) eqn:E; [exact E | reflexivity].
Qed.

Lemma digits_safe (n : nat) : all_safe (string_of_nat n) = true.
Proof.
  unfold all_safe, string_of_nat. generalize (Nat.to_uint n) as u.
  induction u as [| u IH | u IH | u IH | u IH | u IH | u IH | u IH | u IH | u IH | u IH];
    [reflexivity | ..]; cbn [NilEmpty.string_of_uint list_ascii_of_string forallb];
    rewrite IH; reflexivity.
Qed.

Lemma all_safe_no_slash (s : string) : all_safe s = true -> includes s "/" = false.
Proof.
  unfold all_safe. induction s as [| c s IH]; [reflexivity |].
  cbn [list_ascii_of_string forallb]. intros H. apply andb_true_iff in H as [H1 H2].
  rewrite RouteFacts.includes_eq. cbn [String.prefix].
  destruct (ascii_dec "/" c) as [<- | _]; [discriminate H1 | exact (IH H2)].
Qed.

Lemma unique_file_name_eq (now : nat) (b : string) :
  uniqueFileName now b =
  ("summary_paper_" ++ string_of_nat now ++ "_" ++
   sanitize (if String.eqb b "" then "downloaded.pdf" else b))%string.
Proof.
  unfold uniqueFileName. rewrite !sanitize_app, (sanitize_id (string_of_nat now))
    by apply digits_safe.
  reflexivity.
Qed.

(** X17: The temporary file name consists of the characters [a-zA-Z0-9_.-]
    only, so it has no [/] and [path.join(os.tmpdir(), name)] stays in the
    temporary directory; it is [summary_paper_<now>_] followed by the
    sanitised basename (kept as is when already safe), or by
    [downloaded.pdf] when the basename is empty. *)
Theorem unique_file_name_safe (now : nat) (b : string) :
  all_safe (uniqueFileName now b) = true /\
  includes (uniqueFileName now b) "/" = false /\
  uniqueFileName now b =
    ("summary_paper_" ++ string_of_nat now ++ "_" ++
     (if String.eqb b "" then "downloaded.pdf" else sanitize b))%string /\
  (all_safe b = true -> sanitize b = b).
Proof.
  split; [apply sanitize_all_safe |]. split; [apply all_safe_no_slash, sanitize_all_safe |].
  split; [| apply sanitize_id].
  rewrite unique_file_name_eq. destruct (String.eqb b ""); reflexivity.
Qed.

Lemma summarize_steps_forward (key : option string) (body : Summarize.Body) (now : nat)
    (url : UrlOutcome) (dl : DownloadOutcome) (up : UploadOutcome) (gen : GenerateOutcome) :
  POST_full key body now url dl up gen =
  match Summarize.POST key body with
  | Summarize.Resp st err => (RJson st err, [])
  | Summarize.Forward u t => summarize_steps now u t url dl up gen
  end.
Proof. reflexivity. Qed.

Lemma POST_resp_status (key : option string) (body : Summarize.Body) (st : Z) (err : string) :
  Summarize.POST key body = Summarize.Resp st err -> st = 400%Z \/ st = 500%Z.
Proof.
  unfold Summarize.POST.
  destruct (negb _); [intros H; injection H as <- _; right; reflexivity |].
  destruct body as [pu pt | msg]; [| intros H; injection H as <- _; right; reflexivity].
  destruct pu; try (intros H; injection H as <- _; left; reflexivity).
  destruct (String.eqb s ""); [intros H; injection H as <- _; left; reflexivity | discriminate].
Qed.

(** X18: The route replies with the generated summary [t] only when the
    request passed the checks, the PDF URL parsed, the download, the
    upload and the generation succeeded and the text [t] is non-empty; in
    that case it does reply with [t].  Every other reply is an error with
    status 400 or 500. *)
Theorem summarize_replies (key : option string) (body : Summarize.Body) (now : nat)
    (url : UrlOutcome) (dl : DownloadOutcome) (up : UploadOutcome) (gen : GenerateOutcome) :
  (forall t, fst (POST_full key body now url dl up gen) = RSummary t ->
   t <> ""%string /\
   exists u ttl b n, Summarize.POST key body = Summarize.Forward u ttl /\
     url = UrlBasename b /\ dl = DlOk /\ up = UpOk n /\ gen = GenOk (Some t)) /\
  (forall u ttl b n t, Summarize.POST key body = Summarize.Forward u ttl -> t <> ""%string ->
   fst (POST_full key body now (UrlBasename b) DlOk (UpOk n) (GenOk (Some t))) = RSummary t) /\
  (forall st e, fst (POST_full key body now url dl up gen) = RJson st e ->
   st = 400%Z \/ st = 500%Z).
Proof.
  rewrite summarize_steps_forward. split; [| split].
  - intros t. destruct (Summarize.POST key body) as [st err | u ttl] eqn:Hp; [discriminate |].
    unfold summarize_steps. destruct url as [e | b]; [discriminate |].
    unfold try_block. destruct (downloadFile dl) eqn:Hdl; [discriminate |].
    destruct up as [e | n]; [discriminate |].
    destruct gen as [e | [text |]]; cbn; [discriminate | | discriminate].
    destruct (String.eqb text "") eqn:Et; [discriminate |].
    intros H. injection H as <-. split; [apply String.eqb_neq, Et |].
    exists u, ttl, b, n. repeat split; try reflexivity.
    destruct dl; [discriminate | discriminate | reflexivity].
  - intros u ttl b n t Hp Ht. rewrite summarize_steps_forward, Hp. cbn.
    apply String.eqb_neq in Ht. rewrite Ht. reflexivity.
  - intros st e. destruct (Summarize.POST key body) as [st' err | u ttl] eqn:Hp.
    + cbn. intros H. injection H as <- _. exact (POST_resp_status key body st' err Hp).
    + unfold summarize_steps. destruct url as [e' | b].
      * cbn. intros H. injection H as <- _. right. reflexivity.
      * unfold try_block. destruct (downloadFile dl).
        { cbn. intros H. injection H as <- _. right. reflexivity. }
        destruct up as [e' | n]; [cbn; intros H; injection H as <- _; right; reflexivity |].
        destruct gen as [e' | [text |]]; cbn;
          [intros H; injection H as <- _; right; reflexivity | | intros H; injection H as <- _; right; reflexivity].
        destruct (String.eqb text ""); [intros H; injection H as <- _; right; reflexivity | discriminate].
Qed.

Lemma try_block_acts (u t f : string) (dl : DownloadOutcome) (up : UploadOutcome)
    (gen : GenerateOutcome) :
  let '(_, uploaded, acts) := try_block u t f dl up gen in
  hd_error acts = Some (ADownload u f) /\
  (forall n, uploaded = Some (Some n) <-> downloadFile dl = None /\ up = UpOk (Some n)) /\
  (forall n, ~ In (ADeleteUploaded n) acts).
Proof.
  unfold try_block. destruct (downloadFile dl) as [e |] eqn:Hdl.
  { split; [reflexivity | split].
    - intros n. split; [discriminate | intros [H _]; discriminate H].
    - intros n [H | []]; discriminate H. }
  destruct up as [e | nm].
  { split; [reflexivity | split].
    - intros n. split; [discriminate | intros [_ H]; discriminate H].
    - intros n [H | [H | []]]; discriminate H. }
  assert (Hn : forall n, Some nm = Some (Some n) <-> None = @None Thrown /\ UpOk nm = UpOk (Some n)).
  { intros n. split; [intros H; injection H as ->; split; reflexivity |].
    intros [_ H]. injection H as ->. reflexivity. }
  assert (Hd : forall n, ~ In (ADeleteUploaded n) [ADownload u f; AUpload f; AGenerate t]).
  { intros n [H | [H | [H | []]]]; discriminate H. }
  destruct gen as [e | [text |]]; split; try reflexivity; split; assumption.
Qed.

Lemma last_cleanup (acts : list Action) (uploaded : option (option string)) (f : string)
    (d : Action) :
  last (acts ++ cleanup uploaded f)%list d = AUnlinkLocal f.
Proof.
  unfold cleanup. rewrite app_assoc. apply last_last.
Qed.

Lemma in_cleanup (uploaded : option (option string)) (f n : string) :
  In (ADeleteUploaded n) (cleanup uploaded f) <-> uploaded = Some (Some n) /\ n <> ""%string.
Proof.
  unfold cleanup. destruct uploaded as [[nm |] |]; cbn.
  - destruct (String.eqb nm "") eqn:E; cbn.
    + apply String.eqb_eq in E. subst nm. split; [intros [H | []]; discriminate H |].
      intros [H1 H2]. injection H1 as <-. destruct (H2 eq_refl).
    + split.
      * intros [H | [H | []]]; [| discriminate H]. injection H as ->.
        split; [reflexivity | apply String.eqb_neq, E].
      * intros [H _]. injection H as ->. left. reflexivity.
  - split; [intros [H | []]; discriminate H | intros [H _]; discriminate H].
  - split; [intros [H | []]; discriminate H | intros [H _]; discriminate H].
Qed.

(** X19: Once the download is started, the actions begin with the download
    to the temporary file and always end with the removal of that file,
    whatever fails in between; the file uploaded to Gemini is deleted
    exactly when the upload returned a non-empty name.  When the checks
    fail or the PDF URL does not parse, nothing is done. *)
Theorem summarize_cleanup (key : option string) (body : Summarize.Body) (now : nat)
    (url : UrlOutcome) (dl : DownloadOutcome) (up : UploadOutcome) (gen : GenerateOutcome) :
  let acts := snd (POST_full key body now url dl up gen) in
  (acts = [] \/
   exists u ttl b, Summarize.POST key body = Summarize.Forward u ttl /\ url = UrlBasename b /\
     hd_error acts = Some (ADownload u (uniqueFileName now b)) /\
     last acts (ADownload "" "") = AUnlinkLocal (uniqueFileName now b)) /\
  (forall n, In (ADeleteUploaded n) acts <->
   (n <> ""%string /\ up = UpOk (Some n) /\ downloadFile dl = None /\
    (exists u ttl b, Summarize.POST key body = Summarize.Forward u ttl /\ url = UrlBasename b))).
Proof.
  intros acts. unfold acts. rewrite summarize_steps_forward.
  destruct (Summarize.POST key body) as [st err | u ttl] eqn:Hp.
  { split; [left; reflexivity |]. intros n. split; [intros [] |].
    intros (_ & _ & _ & u & ttl & b & H & _). discriminate H. }
  unfold summarize_steps. destruct url as [e | b].
  { split; [left; reflexivity |]. intros n. split; [intros [] |].
    intros (_ & _ & _ & u' & ttl' & b & _ & H). discriminate H. }
  pose proof (try_block_acts u ttl (uniqueFileName now b) dl up gen) as Hb.
  destruct (try_block u ttl (uniqueFileName now b) dl up gen) as [[o uploaded] acts0].
  destruct Hb as (Hhd & Hup & Hnodel). cbn [snd].
  split.
  - right. exists u, ttl, b. split; [reflexivity | split; [reflexivity |]].
    split; [| apply last_cleanup].
    destruct acts0 as [| a acts0]; [discriminate Hhd | exact Hhd].
  - intros n. rewrite in_app_iff, in_cleanup, Hup. split.
    + intros [H | [[H2 H3] H1]]; [destruct (Hnodel n H) |].
      split; [exact H1 | split; [exact H3 | split; [exact H2 |]]].
      exists u, ttl, b. split; reflexivity.
    + intros (H1 & H2 & H3 & _). right. auto.
Qed.

(** X20: After the request checks passed, a PDF URL that does not parse gives
    status 500 with the prefixed message of the exception and no action; a
    download answered with a non-ok status gives status 500 with the
    message [Failed to download file: <status> <statusText>], and a
    download that throws gives status 500 with the prefixed message of
    its exception, in both cases after which only the temporary file is
    removed; an exception of the upload or of the generation gives status
    500 with its message, after which the temporary file is removed (and
    the uploaded file deleted when it has a name); a generation that
    returns no text or an empty text gives status 500 with the message
    that the response was empty, followed by the same cleanup. *)
Theorem summarize_failures (key : option string) (body : Summarize.Body) (now : nat)
    (u ttl b : string) (e : Thrown) (st : nat) (txt : string) (n : option string)
    (up : UploadOutcome) (gen : GenerateOutcome)
    (Hp : Summarize.POST key body = Summarize.Forward u ttl) :
  let f := uniqueFileName now b in
  let empty := RJson 500 "要約の生成に失敗しました。APIからの応答が空でした。" in
  POST_full key body now (UrlThrows e) DlOk up gen =
    (RJson 500 ("要約生成中にサーバーエラーが発生しました: " ++ errorMessage e), []) /\
  POST_full key body now (UrlBasename b) (DlNotOk st txt) up gen =
    (RJson 500 ("要約生成中にサーバーエラーが発生しました: Failed to download file: " ++
                string_of_nat st ++ " " ++ txt),
     [ADownload u f; AUnlinkLocal f]) /\
  POST_full key body now (UrlBasename b) (DlThrows e) up gen =
    (RJson 500 ("要約生成中にサーバーエラーが発生しました: " ++ errorMessage e),
     [ADownload u f; AUnlinkLocal f]) /\
  POST_full key body now (UrlBasename b) DlOk (UpThrows e) gen =
    (RJson 500 ("要約生成中にサーバーエラーが発生しました: " ++ errorMessage e),
     [ADownload u f; AUpload f; AUnlinkLocal f]) /\
  POST_full key body now (UrlBasename b) DlOk (UpOk n) (GenThrows e) =
    (RJson 500 ("要約生成中にサーバーエラーが発生しました: " ++ errorMessage e),
     ([ADownload u f; AUpload f; AGenerate ttl] ++ cleanup (Some n) f)%list) /\
  POST_full key body now (UrlBasename b) DlOk (UpOk n) (GenOk None) =
    (empty, ([ADownload u f; AUpload f; AGenerate ttl] ++ cleanup (Some n) f)%list) /\
  POST_full key body now (UrlBasename b) DlOk (UpOk n) (GenOk (Some "")) =
    (empty, ([ADownload u f; AUpload f; AGenerate ttl] ++ cleanup (Some n) f)%list).
Proof.
  intros f empty. rewrite !summarize_steps_forward, Hp. repeat split.
Qed.

Lemma summarize_failures_witness :
  let f := uniqueFileName 42 "a.pdf" in
  let body := Summarize.BodyOk (Summarize.JsString "http://arxiv.org/pdf/a.pdf")
                               (Summarize.JsString "T") in
  let acts := [ADownload "http://arxiv.org/pdf/a.pdf" f; AUpload f; AGenerate "T"] in
  let empty := RJson 500 "要約の生成に失敗しました。APIからの応答が空でした。" in
  POST_full (Some "k") body 42 (UrlThrows ThrownOther) DlOk (UpOk None) (GenOk None) =
    (RJson 500 ("要約生成中にサーバーエラーが発生しました: " ++ errorMessage ThrownOther), []) /\
  POST_full (Some "k") body 42 (UrlBasename "a.pdf") (DlNotOk 404 "Not Found")
    (UpOk None) (GenOk None) =
    (RJson 500 ("要約生成中にサーバーエラーが発生しました: Failed to download file: " ++
                string_of_nat 404 ++ " " ++ "Not Found"),
     [ADownload "http://arxiv.org/pdf/a.pdf" f; AUnlinkLocal f]) /\
  POST_full (Some "k") body 42 (UrlBasename "a.pdf") (DlThrows ThrownOther)
    (UpOk None) (GenOk None) =
    (RJson 500 ("要約生成中にサーバーエラーが発生しました: " ++ errorMessage ThrownOther),
     [ADownload "http://arxiv.org/pdf/a.pdf" f; AUnlinkLocal f]) /\
  POST_full (Some "k") body 42 (UrlBasename "a.pdf") DlOk (UpThrows ThrownOther)
    (GenOk None) =
    (RJson 500 ("要約生成中にサーバーエラーが発生しました: " ++ errorMessage ThrownOther),
     [ADownload "http://arxiv.org/pdf/a.pdf" f; AUpload f; AUnlinkLocal f]) /\
  POST_full (Some "k") body 42 (UrlBasename "a.pdf") DlOk (UpOk (Some "files/x"))
    (GenThrows ThrownOther) =
    (RJson 500 ("要約生成中にサーバーエラーが発生しました: " ++ errorMessage ThrownOther),
     (acts ++ cleanup (Some (Some "files/x")) f)%list) /\
  POST_full (Some "k") body 42 (UrlBasename "a.pdf") DlOk (UpOk (Some "files/x")) (GenOk None) =
    (empty, (acts ++ cleanup (Some (Some "files/x")) f)%list) /\
  POST_full (Some "k") body 42 (UrlBasename "a.pdf") DlOk (UpOk (Some "files/x"))
    (GenOk (Some "")) =
    (empty, (acts ++ cleanup (Some (Some "files/x")) f)%list).
Proof.
  exact (summarize_failures (Some "k")
           (Summarize.BodyOk (Summarize.JsString "http://arxiv.org/pdf/a.pdf") (Summarize.JsString "T"))
           42 "http://arxiv.org/pdf/a.pdf" "T" "a.pdf" ThrownOther 404 "Not Found"
           (Some "files/x") (UpOk None) (GenOk None) eq_refl).
Defined.

End PipelineProps.
